(** * Medal aggregation: country resolution, per-source normalisation and
      cross-source aggregation of [scrape_data.py], and the alpha-2
      post-process of [add_alpha2_codes.py]. *)

From Stdlib Require Import Ascii.
From stdpp Require Import base gmap strings list.

Local Open Scope list_scope.

(** ** Python strings

    A Python [str] is a sequence of Unicode code points; it is modelled as
    [list N].  Rocq string literals are read byte by byte as code points in
    the range U+0000..U+00FF, which is enough for every literal of the
    source (["TÃ¼rkiye"] is the three code points U+0054 U+00C3 U+00BC
    followed by ["rkiye"]). *)
Abbreviation pystr := (list N).

Fixpoint py (s : string) : pystr :=
  match s with
  | EmptyString => []
  | String a r => Ascii.N_of_ascii a :: py r
  end.

(** [s[:n]] *)
Definition py_slice_to (n : nat) (s : pystr) : pystr := take n s.

Fixpoint prefixb (p s : pystr) : bool :=
  match p, s with
  | [], _ => true
  | x :: p', y :: s' => (x =? y)%N && prefixb p' s'
  | _ :: _, [] => false
  end.

(** [needle in hay] for strings: substring containment. *)
Fixpoint py_in (needle hay : pystr) : bool :=
  prefixb needle hay ||
  match hay with
  | [] => false
  | _ :: hay' => py_in needle hay'
  end.

(** Truthiness of an optional string ([None] and [""] are falsy). *)
Definition truthy (o : option pystr) : bool :=
  match o with Some (_ :: _) => true | _ => false end.

(** [x or y] on values that are [None] or a string. *)
Definition py_or (x y : option pystr) : option pystr :=
  if truthy x then x else y.

(** ** Python dicts with insertion order

    An association list with unique keys; [d[k] = v] replaces the value in
    place when [k] is present and appends otherwise. *)
Fixpoint dict_get {K V} `{EqDecision K} (k : K) (d : list (K * V)) : option V :=
  match d with
  | [] => None
  | (k', v) :: r => if decide (k' = k) then Some v else dict_get k r
  end.

Fixpoint dict_set {K V} `{EqDecision K} (k : K) (v : V) (d : list (K * V))
  : list (K * V) :=
  match d with
  | [] => [(k, v)]
  | (k', v') :: r =>
      if decide (k' = k) then (k, v) :: r else (k', v') :: dict_set k v r
  end.

(** ** Case mapping of [str.lower] and [str.upper]

    The tables are those of CPython 3.11 (Unicode 14.0.0), read off the
    interpreter: the full case mappings of one code point (a code point may
    map to several, as U+0130 under [lower] or U+00DF under [upper]), and
    the properties Cased and Case_Ignorable used by the one context rule of
    [str.lower], the final form of U+03A3 (Objects/unicodeobject.c,
    [handle_capital_sigma]).  [str.upper] has no context rule. *)

(** [chr(c).lower()] for every code point [c] it changes. *)
Definition LOWER_TABLE : list (N * pystr) := ([
  (65, [97]); (66, [98]); (67, [99]); (68, [100]); (69, [101]); (70, [102]);
  (71, [103]); (72, [104]); (73, [105]); (74, [106]); (75, [107]);
  (76, [108]); (77, [109]); (78, [110]); (79, [111]); (80, [112]);
  (81, [113]); (82, [114]); (83, [115]); (84, [116]); (85, [117]);
  (86, [118]); (87, [119]); (88, [120]); (89, [121]); (90, [122]);
  (192, [224]); (193, [225]); (194, [226]); (195, [227]); (196, [228]);
  (197, [229]); (198, [230]); (199, [231]); (200, [232]); (201, [233]);
  (202, [234]); (203, [235]); (204, [236]); (205, [237]); (206, [238]);
  (207, [239]); (208, [240]); (209, [241]); (210, [242]); (211, [243]);
  (212, [244]); (213, [245]); (214, [246]); (216, [248]); (217, [249]);
  (218, [250]); (219, [251]); (220, [252]); (221, [253]); (222, [254]);
  (256, [257]); (258, [259]); (260, [261]); (262, [263]); (264, [265]);
  (266, [267]); (268, [269]); (270, [271]); (272, [273]); (274, [275]);
  (276, [277]); (278, [279]); (280, [281]); (282, [283]); (284, [285]);
  (286, [287]); (288, [289]); (290, [291]); (292, [293]); (294, [295]);
  (296, [297]); (298, [299]); (300, [301]); (302, [303]); (304, [105; 775]);
  (306, [307]); (308, [309]); (310, [311]); (313, [314]); (315, [316]);
  (317, [318]); (319, [320]); (321, [322]); (323, [324]); (325, [326]);
  (327, [328]); (330, [331]); (332, [333]); (334, [335]); (336, [337]);
  (338, [339]); (340, [341]); (342, [343]); (344, [345]); (346, [347]);
  (348, [349]); (350, [351]); (352, [353]); (354, [355]); (356, [357]);
  (358, [359]); (360, [361]); (362, [363]); (364, [365]); (366, [367]);
  (368, [369]); (370, [371]); (372, [373]); (374, [375]); (376, [255]);
  (377, [378]); (379, [380]); (381, [382]); (385, [595]); (386, [387]);
  (388, [389]); (390, [596]); (391, [392]); (393, [598]); (394, [599]);
  (395, [396]); (398, [477]); (399, [601]); (400, [603]); (401, [402]);
  (403, [608]); (404, [611]); (406, [617]); (407, [616]); (408, [409]);
  (412, [623]); (413, [626]); (415, [629]); (416, [417]); (418, [419]);
  (420, [421]); (422, [640]); (423, [424]); (425, [643]); (428, [429]);
  (430, [648]); (431, [432]); (433, [650]); (434, [651]); (435, [436]);
  (437, [438]); (439, [658]); (440, [441]); (444, [445]); (452, [454]);
  (453, [454]); (455, [457]); (456, [457]); (458, [460]); (459, [460]);
  (461, [462]); (463, [464]); (465, [466]); (467, [468]); (469, [470]);
  (471, [472]); (473, [474]); (475, [476]); (478, [479]); (480, [481]);
  (482, [483]); (484, [485]); (486, [487]); (488, [489]); (490, [491]);
  (492, [493]); (494, [495]); (497, [499]); (498, [499]); (500, [501]);
  (502, [405]); (503, [447]); (504, [505]); (506, [507]); (508, [509]);
  (510, [511]); (512, [513]); (514, [515]); (516, [517]); (518, [519]);
  (520, [521]); (522, [523]); (524, [525]); (526, [527]); (528, [529]);
  (530, [531]); (532, [533]); (534, [535]); (536, [537]); (538, [539]);
  (540, [541]); (542, [543]); (544, [414]); (546, [547]); (548, [549]);
  (550, [551]); (552, [553]); (554, [555]); (556, [557]); (558, [559]);
  (560, [561]); (562, [563]); (570, [11365]); (571, [572]); (573, [410]);
  (574, [11366]); (577, [578]); (579, [384]); (580, [649]); (581, [652]);
  (582, [583]); (584, [585]); (586, [587]); (588, [589]); (590, [591]);
  (880, [881]); (882, [883]); (886, [887]); (895, [1011]); (902, [940]);
  (904, [941]); (905, [942]); (906, [943]); (908, [972]); (910, [973]);
  (911, [974]); (913, [945]); (914, [946]); (915, [947]); (916, [948]);
  (917, [949]); (918, [950]); (919, [951]); (920, [952]); (921, [953]);
  (922, [954]); (923, [955]); (924, [956]); (925, [957]); (926, [958]);
  (927, [959]); (928, [960]); (929, [961]); (931, [963]); (932, [964]);
  (933, [965]); (934, [966]); (935, [967]); (936, [968]); (937, [969]);
  (938, [970]); (939, [971]); (975, [983]); (984, [985]); (986, [987]);
  (988, [989]); (990, [991]); (992, [993]); (994, [995]); (996, [997]);
  (998, [999]); (1000, [1001]); (1002, [1003]); (1004, [1005]);
  (1006, [1007]); (1012, [952]); (1015, [1016]); (1017, [1010]);
  (1018, [1019]); (1021, [891]); (1022, [892]); (1023, [893]);
  (1024, [1104]); (1025, [1105]); (1026, [1106]); (1027, [1107]);
  (1028, [1108]); (1029, [1109]); (1030, [1110]); (1031, [1111]);
  (1032, [1112]); (1033, [1113]); (1034, [1114]); (1035, [1115]);
  (1036, [1116]); (1037, [1117]); (1038, [1118]); (1039, [1119]);
  (1040, [1072]); (1041, [1073]); (1042, [1074]); (1043, [1075]);
  (1044, [1076]); (1045, [1077]); (1046, [1078]); (1047, [1079]);
  (1048, [1080]); (1049, [1081]); (1050, [1082]); (1051, [1083]);
  (1052, [1084]); (1053, [1085]); (1054, [1086]); (1055, [1087]);
  (1056, [1088]); (1057, [1089]); (1058, [1090]); (1059, [1091]);
  (1060, [1092]); (1061, [1093]); (1062, [1094]); (1063, [1095]);
  (1064, [1096]); (1065, [1097]); (1066, [1098]); (1067, [1099]);
  (1068, [1100]); (1069, [1101]); (1070, [1102]); (1071, [1103]);
  (1120, [1121]); (1122, [1123]); (1124, [1125]); (1126, [1127]);
  (1128, [1129]); (1130, [1131]); (1132, [1133]); (1134, [1135]);
  (1136, [1137]); (1138, [1139]); (1140, [1141]); (1142, [1143]);
  (1144, [1145]); (1146, [1147]); (1148, [1149]); (1150, [1151]);
  (1152, [1153]); (1162, [1163]); (1164, [1165]); (1166, [1167]);
  (1168, [1169]); (1170, [1171]); (1172, [1173]); (1174, [1175]);
  (1176, [1177]); (1178, [1179]); (1180, [1181]); (1182, [1183]);
  (1184, [1185]); (1186, [1187]); (1188, [1189]); (1190, [1191]);
  (1192, [1193]); (1194, [1195]); (1196, [1197]); (1198, [1199]);
  (1200, [1201]); (1202, [1203]); (1204, [1205]); (1206, [1207]);
  (1208, [1209]); (1210, [1211]); (1212, [1213]); (1214, [1215]);
  (1216, [1231]); (1217, [1218]); (1219, [1220]); (1221, [1222]);
  (1223, [1224]); (1225, [1226]); (1227, [1228]); (1229, [1230]);
  (1232, [1233]); (1234, [1235]); (1236, [1237]); (1238, [1239]);
  (1240, [1241]); (1242, [1243]); (1244, [1245]); (1246, [1247]);
  (1248, [1249]); (1250, [1251]); (1252, [1253]); (1254, [1255]);
  (1256, [1257]); (1258, [1259]); (1260, [1261]); (1262, [1263]);
  (1264, [1265]); (1266, [1267]); (1268, [1269]); (1270, [1271]);
  (1272, [1273]); (1274, [1275]); (1276, [1277]); (1278, [1279]);
  (1280, [1281]); (1282, [1283]); (1284, [1285]); (1286, [1287]);
  (1288, [1289]); (1290, [1291]); (1292, [1293]); (1294, [1295]);
  (1296, [1297]); (1298, [1299]); (1300, [1301]); (1302, [1303]);
  (1304, [1305]); (1306, [1307]); (1308, [1309]); (1310, [1311]);
  (1312, [1313]); (1314, [1315]); (1316, [1317]); (1318, [1319]);
  (1320, [1321]); (1322, [1323]); (1324, [1325]); (1326, [1327]);
  (1329, [1377]); (1330, [1378]); (1331, [1379]); (1332, [1380]);
  (1333, [1381]); (1334, [1382]); (1335, [1383]); (1336, [1384]);
  (1337, [1385]); (1338, [1386]); (1339, [1387]); (1340, [1388]);
  (1341, [1389]); (1342, [1390]); (1343, [1391]); (1344, [1392]);
  (1345, [1393]); (1346, [1394]); (1347, [1395]); (1348, [1396]);
  (1349, [1397]); (1350, [1398]); (1351, [1399]); (1352, [1400]);
  (1353, [1401]); (1354, [1402]); (1355, [1403]); (1356, [1404]);
  (1357, [1405]); (1358, [1406]); (1359, [1407]); (1360, [1408]);
  (1361, [1409]); (1362, [1410]); (1363, [1411]); (1364, [1412]);
  (1365, [1413]); (1366, [1414]); (4256, [11520]); (4257, [11521]);
  (4258, [11522]); (4259, [11523]); (4260, [11524]); (4261, [11525]);
  (4262, [11526]); (4263, [11527]); (4264, [11528]); (4265, [11529]);
  (4266, [11530]); (4267, [11531]); (4268, [11532]); (4269, [11533]);
  (4270, [11534]); (4271, [11535]); (4272, [11536]); (4273, [11537]);
  (4274, [11538]); (4275, [11539]); (4276, [11540]); (4277, [11541]);
  (4278, [11542]); (4279, [11543]); (4280, [11544]); (4281, [11545]);
  (4282, [11546]); (4283, [11547]); (4284, [11548]); (4285, [11549]);
  (4286, [11550]); (4287, [11551]); (4288, [11552]); (4289, [11553]);
  (4290, [11554]); (4291, [11555]); (4292, [11556]); (4293, [11557]);
  (4295, [11559]); (4301, [11565]); (5024, [43888]); (5025, [43889]);
  (5026, [43890]); (5027, [43891]); (5028, [43892]); (5029, [43893]);
  (5030, [43894]); (5031, [43895]); (5032, [43896]); (5033, [43897]);
  (5034, [43898]); (5035, [43899]); (5036, [43900]); (5037, [43901]);
  (5038, [43902]); (5039, [43903]); (5040, [43904]); (5041, [43905]);
  (5042, [43906]); (5043, [43907]); (5044, [43908]); (5045, [43909]);
  (5046, [43910]); (5047, [43911]); (5048, [43912]); (5049, [43913]);
  (5050, [43914]); (5051, [43915]); (5052, [43916]); (5053, [43917]);
  (5054, [43918]); (5055, [43919]); (5056, [43920]); (5057, [43921]);
  (5058, [43922]); (5059, [43923]); (5060, [43924]); (5061, [43925]);
  (5062, [43926]); (5063, [43927]); (5064, [43928]); (5065, [43929]);
  (5066, [43930]); (5067, [43931]); (5068, [43932]); (5069, [43933]);
  (5070, [43934]); (5071, [43935]); (5072, [43936]); (5073, [43937]);
  (5074, [43938]); (5075, [43939]); (5076, [43940]); (5077, [43941]);
  (5078, [43942]); (5079, [43943]); (5080, [43944]); (5081, [43945]);
  (5082, [43946]); (5083, [43947]); (5084, [43948]); (5085, [43949]);
  (5086, [43950]); (5087, [43951]); (5088, [43952]); (5089, [43953]);
  (5090, [43954]); (5091, [43955]); (5092, [43956]); (5093, [43957]);
  (5094, [43958]); (5095, [43959]); (5096, [43960]); (5097, [43961]);
  (5098, [43962]); (5099, [43963]); (5100, [43964]); (5101, [43965]);
  (5102, [43966]); (5103, [43967]); (5104, [5112]); (5105, [5113]);
  (5106, [5114]); (5107, [5115]); (5108, [5116]); (5109, [5117]);
  (7312, [4304]); (7313, [4305]); (7314, [4306]); (7315, [4307]);
  (7316, [4308]); (7317, [4309]); (7318, [4310]); (7319, [4311]);
  (7320, [4312]); (7321, [4313]); (7322, [4314]); (7323, [4315]);
  (7324, [4316]); (7325, [4317]); (7326, [4318]); (7327, [4319]);
  (7328, [4320]); (7329, [4321]); (7330, [4322]); (7331, [4323]);
  (7332, [4324]); (7333, [4325]); (7334, [4326]); (7335, [4327]);
  (7336, [4328]); (7337, [4329]); (7338, [4330]); (7339, [4331]);
  (7340, [4332]); (7341, [4333]); (7342, [4334]); (7343, [4335]);
  (7344, [4336]); (7345, [4337]); (7346, [4338]); (7347, [4339]);
  (7348, [4340]); (7349, [4341]); (7350, [4342]); (7351, [4343]);
  (7352, [4344]); (7353, [4345]); (7354, [4346]); (7357, [4349]);
  (7358, [4350]); (7359, [4351]); (7680, [7681]); (7682, [7683]);
  (7684, [7685]); (7686, [7687]); (7688, [7689]); (7690, [7691]);
  (7692, [7693]); (7694, [7695]); (7696, [7697]); (7698, [7699]);
  (7700, [7701]); (7702, [7703]); (7704, [7705]); (7706, [7707]);
  (7708, [7709]); (7710, [7711]); (7712, [7713]); (7714, [7715]);
  (7716, [7717]); (7718, [7719]); (7720, [7721]); (7722, [7723]);
  (7724, [7725]); (7726, [7727]); (7728, [7729]); (7730, [7731]);
  (7732, [7733]); (7734, [7735]); (7736, [7737]); (7738, [7739]);
  (7740, [7741]); (7742, [7743]); (7744, [7745]); (7746, [7747]);
  (7748, [7749]); (7750, [7751]); (7752, [7753]); (7754, [7755]);
  (7756, [7757]); (7758, [7759]); (7760, [7761]); (7762, [7763]);
  (7764, [7765]); (7766, [7767]); (7768, [7769]); (7770, [7771]);
  (7772, [7773]); (7774, [7775]); (7776, [7777]); (7778, [7779]);
  (7780, [7781]); (7782, [7783]); (7784, [7785]); (7786, [7787]);
  (7788, [7789]); (7790, [7791]); (7792, [7793]); (7794, [7795]);
  (7796, [7797]); (7798, [7799]); (7800, [7801]); (7802, [7803]);
  (7804, [7805]); (7806, [7807]); (7808, [7809]); (7810, [7811]);
  (7812, [7813]); (7814, [7815]); (7816, [7817]); (7818, [7819]);
  (7820, [7821]); (7822, [7823]); (7824, [7825]); (7826, [7827]);
  (7828, [7829]); (7838, [223]); (7840, [7841]); (7842, [7843]);
  (7844, [7845]); (7846, [7847]); (7848, [7849]); (7850, [7851]);
  (7852, [7853]); (7854, [7855]); (7856, [7857]); (7858, [7859]);
  (7860, [7861]); (7862, [7863]); (7864, [7865]); (7866, [7867]);
  (7868, [7869]); (7870, [7871]); (7872, [7873]); (7874, [7875]);
  (7876, [7877]); (7878, [7879]); (7880, [7881]); (7882, [7883]);
  (7884, [7885]); (7886, [7887]); (7888, [7889]); (7890, [7891]);
  (7892, [7893]); (7894, [7895]); (7896, [7897]); (7898, [7899]);
  (7900, [7901]); (7902, [7903]); (7904, [7905]); (7906, [7907]);
  (7908, [7909]); (7910, [7911]); (7912, [7913]); (7914, [7915]);
  (7916, [7917]); (7918, [7919]); (7920, [7921]); (7922, [7923]);
  (7924, [7925]); (7926, [7927]); (7928, [7929]); (7930, [7931]);
  (7932, [7933]); (7934, [7935]); (7944, [7936]); (7945, [7937]);
  (7946, [7938]); (7947, [7939]); (7948, [7940]); (7949, [7941]);
  (7950, [7942]); (7951, [7943]); (7960, [7952]); (7961, [7953]);
  (7962, [7954]); (7963, [7955]); (7964, [7956]); (7965, [7957]);
  (7976, [7968]); (7977, [7969]); (7978, [7970]); (7979, [7971]);
  (7980, [7972]); (7981, [7973]); (7982, [7974]); (7983, [7975]);
  (7992, [7984]); (7993, [7985]); (7994, [7986]); (7995, [7987]);
  (7996, [7988]); (7997, [7989]); (7998, [7990]); (7999, [7991]);
  (8008, [8000]); (8009, [8001]); (8010, [8002]); (8011, [8003]);
  (8012, [8004]); (8013, [8005]); (8025, [8017]); (8027, [8019]);
  (8029, [8021]); (8031, [8023]); (8040, [8032]); (8041, [8033]);
  (8042, [8034]); (8043, [8035]); (8044, [8036]); (8045, [8037]);
  (8046, [8038]); (8047, [8039]); (8072, [8064]); (8073, [8065]);
  (8074, [8066]); (8075, [8067]); (8076, [8068]); (8077, [8069]);
  (8078, [8070]); (8079, [8071]); (8088, [8080]); (8089, [8081]);
  (8090, [8082]); (8091, [8083]); (8092, [8084]); (8093, [8085]);
  (8094, [8086]); (8095, [8087]); (8104, [8096]); (8105, [8097]);
  (8106, [8098]); (8107, [8099]); (8108, [8100]); (8109, [8101]);
  (8110, [8102]); (8111, [8103]); (8120, [8112]); (8121, [8113]);
  (8122, [8048]); (8123, [8049]); (8124, [8115]); (8136, [8050]);
  (8137, [8051]); (8138, [8052]); (8139, [8053]); (8140, [8131]);
  (8152, [8144]); (8153, [8145]); (8154, [8054]); (8155, [8055]);
  (8168, [8160]); (8169, [8161]); (8170, [8058]); (8171, [8059]);
  (8172, [8165]); (8184, [8056]); (8185, [8057]); (8186, [8060]);
  (8187, [8061]); (8188, [8179]); (8486, [969]); (8490, [107]);
  (8491, [229]); (8498, [8526]); (8544, [8560]); (8545, [8561]);
  (8546, [8562]); (8547, [8563]); (8548, [8564]); (8549, [8565]);
  (8550, [8566]); (8551, [8567]); (8552, [8568]); (8553, [8569]);
  (8554, [8570]); (8555, [8571]); (8556, [8572]); (8557, [8573]);
  (8558, [8574]); (8559, [8575]); (8579, [8580]); (9398, [9424]);
  (9399, [9425]); (9400, [9426]); (9401, [9427]); (9402, [9428]);
  (9403, [9429]); (9404, [9430]); (9405, [9431]); (9406, [9432]);
  (9407, [9433]); (9408, [9434]); (9409, [9435]); (9410, [9436]);
  (9411, [9437]); (9412, [9438]); (9413, [9439]); (9414, [9440]);
  (9415, [9441]); (9416, [9442]); (9417, [9443]); (9418, [9444]);
  (9419, [9445]); (9420, [9446]); (9421, [9447]); (9422, [9448]);
  (9423, [9449]); (11264, [11312]); (11265, [11313]); (11266, [11314]);
  (11267, [11315]); (11268, [11316]); (11269, [11317]); (11270, [11318]);
  (11271, [11319]); (11272, [11320]); (11273, [11321]); (11274, [11322]);
  (11275, [11323]); (11276, [11324]); (11277, [11325]); (11278, [11326]);
  (11279, [11327]); (11280, [11328]); (11281, [11329]); (11282, [11330]);
  (11283, [11331]); (11284, [11332]); (11285, [11333]); (11286, [11334]);
  (11287, [11335]); (11288, [11336]); (11289, [11337]); (11290, [11338]);
  (11291, [11339]); (11292, [11340]); (11293, [11341]); (11294, [11342]);
  (11295, [11343]); (11296, [11344]); (11297, [11345]); (11298, [11346]);
  (11299, [11347]); (11300, [11348]); (11301, [11349]); (11302, [11350]);
  (11303, [11351]); (11304, [11352]); (11305, [11353]); (11306, [11354]);
  (11307, [11355]); (11308, [11356]); (11309, [11357]); (11310, [11358]);
  (11311, [11359]); (11360, [11361]); (11362, [619]); (11363, [7549]);
  (11364, [637]); (11367, [11368]); (11369, [11370]); (11371, [11372]);
  (11373, [593]); (11374, [625]); (11375, [592]); (11376, [594]);
  (11378, [11379]); (11381, [11382]); (11390, [575]); (11391, [576]);
  (11392, [11393]); (11394, [11395]); (11396, [11397]); (11398, [11399]);
  (11400, [11401]); (11402, [11403]); (11404, [11405]); (11406, [11407]);
  (11408, [11409]); (11410, [11411]); (11412, [11413]); (11414, [11415]);
  (11416, [11417]); (11418, [11419]); (11420, [11421]); (11422, [11423]);
  (11424, [11425]); (11426, [11427]); (11428, [11429]); (11430, [11431]);
  (11432, [11433]); (11434, [11435]); (11436, [11437]); (11438, [11439]);
  (11440, [11441]); (11442, [11443]); (11444, [11445]); (11446, [11447]);
  (11448, [11449]); (11450, [11451]); (11452, [11453]); (11454, [11455]);
  (11456, [11457]); (11458, [11459]); (11460, [11461]); (11462, [11463]);
  (11464, [11465]); (11466, [11467]); (11468, [11469]); (11470, [11471]);
  (11472, [11473]); (11474, [11475]); (11476, [11477]); (11478, [11479]);
  (11480, [11481]); (11482, [11483]); (11484, [11485]); (11486, [11487]);
  (11488, [11489]); (11490, [11491]); (11499, [11500]); (11501, [11502]);
  (11506, [11507]); (42560, [42561]); (42562, [42563]); (42564, [42565]);
  (42566, [42567]); (42568, [42569]); (42570, [42571]); (42572, [42573]);
  (42574, [42575]); (42576, [42577]); (42578, [42579]); (42580, [42581]);
  (42582, [42583]); (42584, [42585]); (42586, [42587]); (42588, [42589]);
  (42590, [42591]); (42592, [42593]); (42594, [42595]); (42596, [42597]);
  (42598, [42599]); (42600, [42601]); (42602, [42603]); (42604, [42605]);
  (42624, [42625]); (42626, [42627]); (42628, [42629]); (42630, [42631]);
  (42632, [42633]); (42634, [42635]); (42636, [42637]); (42638, [42639]);
  (42640, [42641]); (42642, [42643]); (42644, [42645]); (42646, [42647]);
  (42648, [42649]); (42650, [42651]); (42786, [42787]); (42788, [42789]);
  (42790, [42791]); (42792, [42793]); (42794, [42795]); (42796, [42797]);
  (42798, [42799]); (42802, [42803]); (42804, [42805]); (42806, [42807]);
  (42808, [42809]); (42810, [42811]); (42812, [42813]); (42814, [42815]);
  (42816, [42817]); (42818, [42819]); (42820, [42821]); (42822, [42823]);
  (42824, [42825]); (42826, [42827]); (42828, [42829]); (42830, [42831]);
  (42832, [42833]); (42834, [42835]); (42836, [42837]); (42838, [42839]);
  (42840, [42841]); (42842, [42843]); (42844, [42845]); (42846, [42847]);
  (42848, [42849]); (42850, [42851]); (42852, [42853]); (42854, [42855]);
  (42856, [42857]); (42858, [42859]); (42860, [42861]); (42862, [42863]);
  (42873, [42874]); (42875, [42876]); (42877, [7545]); (42878, [42879]);
  (42880, [42881]); (42882, [42883]); (42884, [42885]); (42886, [42887]);
  (42891, [42892]); (42893, [613]); (42896, [42897]); (42898, [42899]);
  (42902, [42903]); (42904, [42905]); (42906, [42907]); (42908, [42909]);
  (42910, [42911]); (42912, [42913]); (42914, [42915]); (42916, [42917]);
  (42918, [42919]); (42920, [42921]); (42922, [614]); (42923, [604]);
  (42924, [609]); (42925, [620]); (42926, [618]); (42928, [670]);
  (42929, [647]); (42930, [669]); (42931, [43859]); (42932, [42933]);
  (42934, [42935]); (42936, [42937]); (42938, [42939]); (42940, [42941]);
  (42942, [42943]); (42944, [42945]); (42946, [42947]); (42948, [42900]);
  (42949, [642]); (42950, [7566]); (42951, [42952]); (42953, [42954]);
  (42960, [42961]); (42966, [42967]); (42968, [42969]); (42997, [42998]);
  (65313, [65345]); (65314, [65346]); (65315, [65347]); (65316, [65348]);
  (65317, [65349]); (65318, [65350]); (65319, [65351]); (65320, [65352]);
  (65321, [65353]); (65322, [65354]); (65323, [65355]); (65324, [65356]);
  (65325, [65357]); (65326, [65358]); (65327, [65359]); (65328, [65360]);
  (65329, [65361]); (65330, [65362]); (65331, [65363]); (65332, [65364]);
  (65333, [65365]); (65334, [65366]); (65335, [65367]); (65336, [65368]);
  (65337, [65369]); (65338, [65370]); (66560, [66600]); (66561, [66601]);
  (66562, [66602]); (66563, [66603]); (66564, [66604]); (66565, [66605]);
  (66566, [66606]); (66567, [66607]); (66568, [66608]); (66569, [66609]);
  (66570, [66610]); (66571, [66611]); (66572, [66612]); (66573, [66613]);
  (66574, [66614]); (66575, [66615]); (66576, [66616]); (66577, [66617]);
  (66578, [66618]); (66579, [66619]); (66580, [66620]); (66581, [66621]);
  (66582, [66622]); (66583, [66623]); (66584, [66624]); (66585, [66625]);
  (66586, [66626]); (66587, [66627]); (66588, [66628]); (66589, [66629]);
  (66590, [66630]); (66591, [66631]); (66592, [66632]); (66593, [66633]);
  (66594, [66634]); (66595, [66635]); (66596, [66636]); (66597, [66637]);
  (66598, [66638]); (66599, [66639]); (66736, [66776]); (66737, [66777]);
  (66738, [66778]); (66739, [66779]); (66740, [66780]); (66741, [66781]);
  (66742, [66782]); (66743, [66783]); (66744, [66784]); (66745, [66785]);
  (66746, [66786]); (66747, [66787]); (66748, [66788]); (66749, [66789]);
  (66750, [66790]); (66751, [66791]); (66752, [66792]); (66753, [66793]);
  (66754, [66794]); (66755, [66795]); (66756, [66796]); (66757, [66797]);
  (66758, [66798]); (66759, [66799]); (66760, [66800]); (66761, [66801]);
  (66762, [66802]); (66763, [66803]); (66764, [66804]); (66765, [66805]);
  (66766, [66806]); (66767, [66807]); (66768, [66808]); (66769, [66809]);
  (66770, [66810]); (66771, [66811]); (66928, [66967]); (66929, [66968]);
  (66930, [66969]); (66931, [66970]); (66932, [66971]); (66933, [66972]);
  (66934, [66973]); (66935, [66974]); (66936, [66975]); (66937, [66976]);
  (66938, [66977]); (66940, [66979]); (66941, [66980]); (66942, [66981]);
  (66943, [66982]); (66944, [66983]); (66945, [66984]); (66946, [66985]);
  (66947, [66986]); (66948, [66987]); (66949, [66988]); (66950, [66989]);
  (66951, [66990]); (66952, [66991]); (66953, [66992]); (66954, [66993]);
  (66956, [66995]); (66957, [66996]); (66958, [66997]); (66959, [66998]);
  (66960, [66999]); (66961, [67000]); (66962, [67001]); (66964, [67003]);
  (66965, [67004]); (68736, [68800]); (68737, [68801]); (68738, [68802]);
  (68739, [68803]); (68740, [68804]); (68741, [68805]); (68742, [68806]);
  (68743, [68807]); (68744, [68808]); (68745, [68809]); (68746, [68810]);
  (68747, [68811]); (68748, [68812]); (68749, [68813]); (68750, [68814]);
  (68751, [68815]); (68752, [68816]); (68753, [68817]); (68754, [68818]);
  (68755, [68819]); (68756, [68820]); (68757, [68821]); (68758, [68822]);
  (68759, [68823]); (68760, [68824]); (68761, [68825]); (68762, [68826]);
  (68763, [68827]); (68764, [68828]); (68765, [68829]); (68766, [68830]);
  (68767, [68831]); (68768, [68832]); (68769, [68833]); (68770, [68834]);
  (68771, [68835]); (68772, [68836]); (68773, [68837]); (68774, [68838]);
  (68775, [68839]); (68776, [68840]); (68777, [68841]); (68778, [68842]);
  (68779, [68843]); (68780, [68844]); (68781, [68845]); (68782, [68846]);
  (68783, [68847]); (68784, [68848]); (68785, [68849]); (68786, [68850]);
  (71840, [71872]); (71841, [71873]); (71842, [71874]); (71843, [71875]);
  (71844, [71876]); (71845, [71877]); (71846, [71878]); (71847, [71879]);
  (71848, [71880]); (71849, [71881]); (71850, [71882]); (71851, [71883]);
  (71852, [71884]); (71853, [71885]); (71854, [71886]); (71855, [71887]);
  (71856, [71888]); (71857, [71889]); (71858, [71890]); (71859, [71891]);
  (71860, [71892]); (71861, [71893]); (71862, [71894]); (71863, [71895]);
  (71864, [71896]); (71865, [71897]); (71866, [71898]); (71867, [71899]);
  (71868, [71900]); (71869, [71901]); (71870, [71902]); (71871, [71903]);
  (93760, [93792]); (93761, [93793]); (93762, [93794]); (93763, [93795]);
  (93764, [93796]); (93765, [93797]); (93766, [93798]); (93767, [93799]);
  (93768, [93800]); (93769, [93801]); (93770, [93802]); (93771, [93803]);
  (93772, [93804]); (93773, [93805]); (93774, [93806]); (93775, [93807]);
  (93776, [93808]); (93777, [93809]); (93778, [93810]); (93779, [93811]);
  (93780, [93812]); (93781, [93813]); (93782, [93814]); (93783, [93815]);
  (93784, [93816]); (93785, [93817]); (93786, [93818]); (93787, [93819]);
  (93788, [93820]); (93789, [93821]); (93790, [93822]); (93791, [93823]);
  (125184, [125218]); (125185, [125219]); (125186, [125220]);
  (125187, [125221]); (125188, [125222]); (125189, [125223]);
  (125190, [125224]); (125191, [125225]); (125192, [125226]);
  (125193, [125227]); (125194, [125228]); (125195, [125229]);
  (125196, [125230]); (125197, [125231]); (125198, [125232]);
  (125199, [125233]); (125200, [125234]); (125201, [125235]);
  (125202, [125236]); (125203, [125237]); (125204, [125238]);
  (125205, [125239]); (125206, [125240]); (125207, [125241]);
  (125208, [125242]); (125209, [125243]); (125210, [125244]);
  (125211, [125245]); (125212, [125246]); (125213, [125247]);
  (125214, [125248]); (125215, [125249]); (125216, [125250]);
  (125217, [125251])])%N.

(** [chr(c).upper()] for every code point [c] it changes. *)
Definition UPPER_TABLE : list (N * pystr) := ([
  (97, [65]); (98, [66]); (99, [67]); (100, [68]); (101, [69]); (102, [70]);
  (103, [71]); (104, [72]); (105, [73]); (106, [74]); (107, [75]);
  (108, [76]); (109, [77]); (110, [78]); (111, [79]); (112, [80]);
  (113, [81]); (114, [82]); (115, [83]); (116, [84]); (117, [85]);
  (118, [86]); (119, [87]); (120, [88]); (121, [89]); (122, [90]);
  (181, [924]); (223, [83; 83]); (224, [192]); (225, [193]); (226, [194]);
  (227, [195]); (228, [196]); (229, [197]); (230, [198]); (231, [199]);
  (232, [200]); (233, [201]); (234, [202]); (235, [203]); (236, [204]);
  (237, [205]); (238, [206]); (239, [207]); (240, [208]); (241, [209]);
  (242, [210]); (243, [211]); (244, [212]); (245, [213]); (246, [214]);
  (248, [216]); (249, [217]); (250, [218]); (251, [219]); (252, [220]);
  (253, [221]); (254, [222]); (255, [376]); (257, [256]); (259, [258]);
  (261, [260]); (263, [262]); (265, [264]); (267, [266]); (269, [268]);
  (271, [270]); (273, [272]); (275, [274]); (277, [276]); (279, [278]);
  (281, [280]); (283, [282]); (285, [284]); (287, [286]); (289, [288]);
  (291, [290]); (293, [292]); (295, [294]); (297, [296]); (299, [298]);
  (301, [300]); (303, [302]); (305, [73]); (307, [306]); (309, [308]);
  (311, [310]); (314, [313]); (316, [315]); (318, [317]); (320, [319]);
  (322, [321]); (324, [323]); (326, [325]); (328, [327]); (329, [700; 78]);
  (331, [330]); (333, [332]); (335, [334]); (337, [336]); (339, [338]);
  (341, [340]); (343, [342]); (345, [344]); (347, [346]); (349, [348]);
  (351, [350]); (353, [352]); (355, [354]); (357, [356]); (359, [358]);
  (361, [360]); (363, [362]); (365, [364]); (367, [366]); (369, [368]);
  (371, [370]); (373, [372]); (375, [374]); (378, [377]); (380, [379]);
  (382, [381]); (383, [83]); (384, [579]); (387, [386]); (389, [388]);
  (392, [391]); (396, [395]); (402, [401]); (405, [502]); (409, [408]);
  (410, [573]); (414, [544]); (417, [416]); (419, [418]); (421, [420]);
  (424, [423]); (429, [428]); (432, [431]); (436, [435]); (438, [437]);
  (441, [440]); (445, [444]); (447, [503]); (453, [452]); (454, [452]);
  (456, [455]); (457, [455]); (459, [458]); (460, [458]); (462, [461]);
  (464, [463]); (466, [465]); (468, [467]); (470, [469]); (472, [471]);
  (474, [473]); (476, [475]); (477, [398]); (479, [478]); (481, [480]);
  (483, [482]); (485, [484]); (487, [486]); (489, [488]); (491, [490]);
  (493, [492]); (495, [494]); (496, [74; 780]); (498, [497]); (499, [497]);
  (501, [500]); (505, [504]); (507, [506]); (509, [508]); (511, [510]);
  (513, [512]); (515, [514]); (517, [516]); (519, [518]); (521, [520]);
  (523, [522]); (525, [524]); (527, [526]); (529, [528]); (531, [530]);
  (533, [532]); (535, [534]); (537, [536]); (539, [538]); (541, [540]);
  (543, [542]); (547, [546]); (549, [548]); (551, [550]); (553, [552]);
  (555, [554]); (557, [556]); (559, [558]); (561, [560]); (563, [562]);
  (572, [571]); (575, [11390]); (576, [11391]); (578, [577]); (583, [582]);
  (585, [584]); (587, [586]); (589, [588]); (591, [590]); (592, [11375]);
  (593, [11373]); (594, [11376]); (595, [385]); (596, [390]); (598, [393]);
  (599, [394]); (601, [399]); (603, [400]); (604, [42923]); (608, [403]);
  (609, [42924]); (611, [404]); (613, [42893]); (614, [42922]); (616, [407]);
  (617, [406]); (618, [42926]); (619, [11362]); (620, [42925]); (623, [412]);
  (625, [11374]); (626, [413]); (629, [415]); (637, [11364]); (640, [422]);
  (642, [42949]); (643, [425]); (647, [42929]); (648, [430]); (649, [580]);
  (650, [433]); (651, [434]); (652, [581]); (658, [439]); (669, [42930]);
  (670, [42928]); (837, [921]); (881, [880]); (883, [882]); (887, [886]);
  (891, [1021]); (892, [1022]); (893, [1023]); (912, [921; 776; 769]);
  (940, [902]); (941, [904]); (942, [905]); (943, [906]);
  (944, [933; 776; 769]); (945, [913]); (946, [914]); (947, [915]);
  (948, [916]); (949, [917]); (950, [918]); (951, [919]); (952, [920]);
  (953, [921]); (954, [922]); (955, [923]); (956, [924]); (957, [925]);
  (958, [926]); (959, [927]); (960, [928]); (961, [929]); (962, [931]);
  (963, [931]); (964, [932]); (965, [933]); (966, [934]); (967, [935]);
  (968, [936]); (969, [937]); (970, [938]); (971, [939]); (972, [908]);
  (973, [910]); (974, [911]); (976, [914]); (977, [920]); (981, [934]);
  (982, [928]); (983, [975]); (985, [984]); (987, [986]); (989, [988]);
  (991, [990]); (993, [992]); (995, [994]); (997, [996]); (999, [998]);
  (1001, [1000]); (1003, [1002]); (1005, [1004]); (1007, [1006]);
  (1008, [922]); (1009, [929]); (1010, [1017]); (1011, [895]); (1013, [917]);
  (1016, [1015]); (1019, [1018]); (1072, [1040]); (1073, [1041]);
  (1074, [1042]); (1075, [1043]); (1076, [1044]); (1077, [1045]);
  (1078, [1046]); (1079, [1047]); (1080, [1048]); (1081, [1049]);
  (1082, [1050]); (1083, [1051]); (1084, [1052]); (1085, [1053]);
  (1086, [1054]); (1087, [1055]); (1088, [1056]); (1089, [1057]);
  (1090, [1058]); (1091, [1059]); (1092, [1060]); (1093, [1061]);
  (1094, [1062]); (1095, [1063]); (1096, [1064]); (1097, [1065]);
  (1098, [1066]); (1099, [1067]); (1100, [1068]); (1101, [1069]);
  (1102, [1070]); (1103, [1071]); (1104, [1024]); (1105, [1025]);
  (1106, [1026]); (1107, [1027]); (1108, [1028]); (1109, [1029]);
  (1110, [1030]); (1111, [1031]); (1112, [1032]); (1113, [1033]);
  (1114, [1034]); (1115, [1035]); (1116, [1036]); (1117, [1037]);
  (1118, [1038]); (1119, [1039]); (1121, [1120]); (1123, [1122]);
  (1125, [1124]); (1127, [1126]); (1129, [1128]); (1131, [1130]);
  (1133, [1132]); (1135, [1134]); (1137, [1136]); (1139, [1138]);
  (1141, [1140]); (1143, [1142]); (1145, [1144]); (1147, [1146]);
  (1149, [1148]); (1151, [1150]); (1153, [1152]); (1163, [1162]);
  (1165, [1164]); (1167, [1166]); (1169, [1168]); (1171, [1170]);
  (1173, [1172]); (1175, [1174]); (1177, [1176]); (1179, [1178]);
  (1181, [1180]); (1183, [1182]); (1185, [1184]); (1187, [1186]);
  (1189, [1188]); (1191, [1190]); (1193, [1192]); (1195, [1194]);
  (1197, [1196]); (1199, [1198]); (1201, [1200]); (1203, [1202]);
  (1205, [1204]); (1207, [1206]); (1209, [1208]); (1211, [1210]);
  (1213, [1212]); (1215, [1214]); (1218, [1217]); (1220, [1219]);
  (1222, [1221]); (1224, [1223]); (1226, [1225]); (1228, [1227]);
  (1230, [1229]); (1231, [1216]); (1233, [1232]); (1235, [1234]);
  (1237, [1236]); (1239, [1238]); (1241, [1240]); (1243, [1242]);
  (1245, [1244]); (1247, [1246]); (1249, [1248]); (1251, [1250]);
  (1253, [1252]); (1255, [1254]); (1257, [1256]); (1259, [1258]);
  (1261, [1260]); (1263, [1262]); (1265, [1264]); (1267, [1266]);
  (1269, [1268]); (1271, [1270]); (1273, [1272]); (1275, [1274]);
  (1277, [1276]); (1279, [1278]); (1281, [1280]); (1283, [1282]);
  (1285, [1284]); (1287, [1286]); (1289, [1288]); (1291, [1290]);
  (1293, [1292]); (1295, [1294]); (1297, [1296]); (1299, [1298]);
  (1301, [1300]); (1303, [1302]); (1305, [1304]); (1307, [1306]);
  (1309, [1308]); (1311, [1310]); (1313, [1312]); (1315, [1314]);
  (1317, [1316]); (1319, [1318]); (1321, [1320]); (1323, [1322]);
  (1325, [1324]); (1327, [1326]); (1377, [1329]); (1378, [1330]);
  (1379, [1331]); (1380, [1332]); (1381, [1333]); (1382, [1334]);
  (1383, [1335]); (1384, [1336]); (1385, [1337]); (1386, [1338]);
  (1387, [1339]); (1388, [1340]); (1389, [1341]); (1390, [1342]);
  (1391, [1343]); (1392, [1344]); (1393, [1345]); (1394, [1346]);
  (1395, [1347]); (1396, [1348]); (1397, [1349]); (1398, [1350]);
  (1399, [1351]); (1400, [1352]); (1401, [1353]); (1402, [1354]);
  (1403, [1355]); (1404, [1356]); (1405, [1357]); (1406, [1358]);
  (1407, [1359]); (1408, [1360]); (1409, [1361]); (1410, [1362]);
  (1411, [1363]); (1412, [1364]); (1413, [1365]); (1414, [1366]);
  (1415, [1333; 1362]); (4304, [7312]); (4305, [7313]); (4306, [7314]);
  (4307, [7315]); (4308, [7316]); (4309, [7317]); (4310, [7318]);
  (4311, [7319]); (4312, [7320]); (4313, [7321]); (4314, [7322]);
  (4315, [7323]); (4316, [7324]); (4317, [7325]); (4318, [7326]);
  (4319, [7327]); (4320, [7328]); (4321, [7329]); (4322, [7330]);
  (4323, [7331]); (4324, [7332]); (4325, [7333]); (4326, [7334]);
  (4327, [7335]); (4328, [7336]); (4329, [7337]); (4330, [7338]);
  (4331, [7339]); (4332, [7340]); (4333, [7341]); (4334, [7342]);
  (4335, [7343]); (4336, [7344]); (4337, [7345]); (4338, [7346]);
  (4339, [7347]); (4340, [7348]); (4341, [7349]); (4342, [7350]);
  (4343, [7351]); (4344, [7352]); (4345, [7353]); (4346, [7354]);
  (4349, [7357]); (4350, [7358]); (4351, [7359]); (5112, [5104]);
  (5113, [5105]); (5114, [5106]); (5115, [5107]); (5116, [5108]);
  (5117, [5109]); (7296, [1042]); (7297, [1044]); (7298, [1054]);
  (7299, [1057]); (7300, [1058]); (7301, [1058]); (7302, [1066]);
  (7303, [1122]); (7304, [42570]); (7545, [42877]); (7549, [11363]);
  (7566, [42950]); (7681, [7680]); (7683, [7682]); (7685, [7684]);
  (7687, [7686]); (7689, [7688]); (7691, [7690]); (7693, [7692]);
  (7695, [7694]); (7697, [7696]); (7699, [7698]); (7701, [7700]);
  (7703, [7702]); (7705, [7704]); (7707, [7706]); (7709, [7708]);
  (7711, [7710]); (7713, [7712]); (7715, [7714]); (7717, [7716]);
  (7719, [7718]); (7721, [7720]); (7723, [7722]); (7725, [7724]);
  (7727, [7726]); (7729, [7728]); (7731, [7730]); (7733, [7732]);
  (7735, [7734]); (7737, [7736]); (7739, [7738]); (7741, [7740]);
  (7743, [7742]); (7745, [7744]); (7747, [7746]); (7749, [7748]);
  (7751, [7750]); (7753, [7752]); (7755, [7754]); (7757, [7756]);
  (7759, [7758]); (7761, [7760]); (7763, [7762]); (7765, [7764]);
  (7767, [7766]); (7769, [7768]); (7771, [7770]); (7773, [7772]);
  (7775, [7774]); (7777, [7776]); (7779, [7778]); (7781, [7780]);
  (7783, [7782]); (7785, [7784]); (7787, [7786]); (7789, [7788]);
  (7791, [7790]); (7793, [7792]); (7795, [7794]); (7797, [7796]);
  (7799, [7798]); (7801, [7800]); (7803, [7802]); (7805, [7804]);
  (7807, [7806]); (7809, [7808]); (7811, [7810]); (7813, [7812]);
  (7815, [7814]); (7817, [7816]); (7819, [7818]); (7821, [7820]);
  (7823, [7822]); (7825, [7824]); (7827, [7826]); (7829, [7828]);
  (7830, [72; 817]); (7831, [84; 776]); (7832, [87; 778]); (7833, [89; 778]);
  (7834, [65; 702]); (7835, [7776]); (7841, [7840]); (7843, [7842]);
  (7845, [7844]); (7847, [7846]); (7849, [7848]); (7851, [7850]);
  (7853, [7852]); (7855, [7854]); (7857, [7856]); (7859, [7858]);
  (7861, [7860]); (7863, [7862]); (7865, [7864]); (7867, [7866]);
  (7869, [7868]); (7871, [7870]); (7873, [7872]); (7875, [7874]);
  (7877, [7876]); (7879, [7878]); (7881, [7880]); (7883, [7882]);
  (7885, [7884]); (7887, [7886]); (7889, [7888]); (7891, [7890]);
  (7893, [7892]); (7895, [7894]); (7897, [7896]); (7899, [7898]);
  (7901, [7900]); (7903, [7902]); (7905, [7904]); (7907, [7906]);
  (7909, [7908]); (7911, [7910]); (7913, [7912]); (7915, [7914]);
  (7917, [7916]); (7919, [7918]); (7921, [7920]); (7923, [7922]);
  (7925, [7924]); (7927, [7926]); (7929, [7928]); (7931, [7930]);
  (7933, [7932]); (7935, [7934]); (7936, [7944]); (7937, [7945]);
  (7938, [7946]); (7939, [7947]); (7940, [7948]); (7941, [7949]);
  (7942, [7950]); (7943, [7951]); (7952, [7960]); (7953, [7961]);
  (7954, [7962]); (7955, [7963]); (7956, [7964]); (7957, [7965]);
  (7968, [7976]); (7969, [7977]); (7970, [7978]); (7971, [7979]);
  (7972, [7980]); (7973, [7981]); (7974, [7982]); (7975, [7983]);
  (7984, [7992]); (7985, [7993]); (7986, [7994]); (7987, [7995]);
  (7988, [7996]); (7989, [7997]); (7990, [7998]); (7991, [7999]);
  (8000, [8008]); (8001, [8009]); (8002, [8010]); (8003, [8011]);
  (8004, [8012]); (8005, [8013]); (8016, [933; 787]); (8017, [8025]);
  (8018, [933; 787; 768]); (8019, [8027]); (8020, [933; 787; 769]);
  (8021, [8029]); (8022, [933; 787; 834]); (8023, [8031]); (8032, [8040]);
  (8033, [8041]); (8034, [8042]); (8035, [8043]); (8036, [8044]);
  (8037, [8045]); (8038, [8046]); (8039, [8047]); (8048, [8122]);
  (8049, [8123]); (8050, [8136]); (8051, [8137]); (8052, [8138]);
  (8053, [8139]); (8054, [8154]); (8055, [8155]); (8056, [8184]);
  (8057, [8185]); (8058, [8170]); (8059, [8171]); (8060, [8186]);
  (8061, [8187]); (8064, [7944; 921]); (8065, [7945; 921]);
  (8066, [7946; 921]); (8067, [7947; 921]); (8068, [7948; 921]);
  (8069, [7949; 921]); (8070, [7950; 921]); (8071, [7951; 921]);
  (8072, [7944; 921]); (8073, [7945; 921]); (8074, [7946; 921]);
  (8075, [7947; 921]); (8076, [7948; 921]); (8077, [7949; 921]);
  (8078, [7950; 921]); (8079, [7951; 921]); (8080, [7976; 921]);
  (8081, [7977; 921]); (8082, [7978; 921]); (8083, [7979; 921]);
  (8084, [7980; 921]); (8085, [7981; 921]); (8086, [7982; 921]);
  (8087, [7983; 921]); (8088, [7976; 921]); (8089, [7977; 921]);
  (8090, [7978; 921]); (8091, [7979; 921]); (8092, [7980; 921]);
  (8093, [7981; 921]); (8094, [7982; 921]); (8095, [7983; 921]);
  (8096, [8040; 921]); (8097, [8041; 921]); (8098, [8042; 921]);
  (8099, [8043; 921]); (8100, [8044; 921]); (8101, [8045; 921]);
  (8102, [8046; 921]); (8103, [8047; 921]); (8104, [8040; 921]);
  (8105, [8041; 921]); (8106, [8042; 921]); (8107, [8043; 921]);
  (8108, [8044; 921]); (8109, [8045; 921]); (8110, [8046; 921]);
  (8111, [8047; 921]); (8112, [8120]); (8113, [8121]); (8114, [8122; 921]);
  (8115, [913; 921]); (8116, [902; 921]); (8118, [913; 834]);
  (8119, [913; 834; 921]); (8124, [913; 921]); (8126, [921]);
  (8130, [8138; 921]); (8131, [919; 921]); (8132, [905; 921]);
  (8134, [919; 834]); (8135, [919; 834; 921]); (8140, [919; 921]);
  (8144, [8152]); (8145, [8153]); (8146, [921; 776; 768]);
  (8147, [921; 776; 769]); (8150, [921; 834]); (8151, [921; 776; 834]);
  (8160, [8168]); (8161, [8169]); (8162, [933; 776; 768]);
  (8163, [933; 776; 769]); (8164, [929; 787]); (8165, [8172]);
  (8166, [933; 834]); (8167, [933; 776; 834]); (8178, [8186; 921]);
  (8179, [937; 921]); (8180, [911; 921]); (8182, [937; 834]);
  (8183, [937; 834; 921]); (8188, [937; 921]); (8526, [8498]);
  (8560, [8544]); (8561, [8545]); (8562, [8546]); (8563, [8547]);
  (8564, [8548]); (8565, [8549]); (8566, [8550]); (8567, [8551]);
  (8568, [8552]); (8569, [8553]); (8570, [8554]); (8571, [8555]);
  (8572, [8556]); (8573, [8557]); (8574, [8558]); (8575, [8559]);
  (8580, [8579]); (9424, [9398]); (9425, [9399]); (9426, [9400]);
  (9427, [9401]); (9428, [9402]); (9429, [9403]); (9430, [9404]);
  (9431, [9405]); (9432, [9406]); (9433, [9407]); (9434, [9408]);
  (9435, [9409]); (9436, [9410]); (9437, [9411]); (9438, [9412]);
  (9439, [9413]); (9440, [9414]); (9441, [9415]); (9442, [9416]);
  (9443, [9417]); (9444, [9418]); (9445, [9419]); (9446, [9420]);
  (9447, [9421]); (9448, [9422]); (9449, [9423]); (11312, [11264]);
  (11313, [11265]); (11314, [11266]); (11315, [11267]); (11316, [11268]);
  (11317, [11269]); (11318, [11270]); (11319, [11271]); (11320, [11272]);
  (11321, [11273]); (11322, [11274]); (11323, [11275]); (11324, [11276]);
  (11325, [11277]); (11326, [11278]); (11327, [11279]); (11328, [11280]);
  (11329, [11281]); (11330, [11282]); (11331, [11283]); (11332, [11284]);
  (11333, [11285]); (11334, [11286]); (11335, [11287]); (11336, [11288]);
  (11337, [11289]); (11338, [11290]); (11339, [11291]); (11340, [11292]);
  (11341, [11293]); (11342, [11294]); (11343, [11295]); (11344, [11296]);
  (11345, [11297]); (11346, [11298]); (11347, [11299]); (11348, [11300]);
  (11349, [11301]); (11350, [11302]); (11351, [11303]); (11352, [11304]);
  (11353, [11305]); (11354, [11306]); (11355, [11307]); (11356, [11308]);
  (11357, [11309]); (11358, [11310]); (11359, [11311]); (11361, [11360]);
  (11365, [570]); (11366, [574]); (11368, [11367]); (11370, [11369]);
  (11372, [11371]); (11379, [11378]); (11382, [11381]); (11393, [11392]);
  (11395, [11394]); (11397, [11396]); (11399, [11398]); (11401, [11400]);
  (11403, [11402]); (11405, [11404]); (11407, [11406]); (11409, [11408]);
  (11411, [11410]); (11413, [11412]); (11415, [11414]); (11417, [11416]);
  (11419, [11418]); (11421, [11420]); (11423, [11422]); (11425, [11424]);
  (11427, [11426]); (11429, [11428]); (11431, [11430]); (11433, [11432]);
  (11435, [11434]); (11437, [11436]); (11439, [11438]); (11441, [11440]);
  (11443, [11442]); (11445, [11444]); (11447, [11446]); (11449, [11448]);
  (11451, [11450]); (11453, [11452]); (11455, [11454]); (11457, [11456]);
  (11459, [11458]); (11461, [11460]); (11463, [11462]); (11465, [11464]);
  (11467, [11466]); (11469, [11468]); (11471, [11470]); (11473, [11472]);
  (11475, [11474]); (11477, [11476]); (11479, [11478]); (11481, [11480]);
  (11483, [11482]); (11485, [11484]); (11487, [11486]); (11489, [11488]);
  (11491, [11490]); (11500, [11499]); (11502, [11501]); (11507, [11506]);
  (11520, [4256]); (11521, [4257]); (11522, [4258]); (11523, [4259]);
  (11524, [4260]); (11525, [4261]); (11526, [4262]); (11527, [4263]);
  (11528, [4264]); (11529, [4265]); (11530, [4266]); (11531, [4267]);
  (11532, [4268]); (11533, [4269]); (11534, [4270]); (11535, [4271]);
  (11536, [4272]); (11537, [4273]); (11538, [4274]); (11539, [4275]);
  (11540, [4276]); (11541, [4277]); (11542, [4278]); (11543, [4279]);
  (11544, [4280]); (11545, [4281]); (11546, [4282]); (11547, [4283]);
  (11548, [4284]); (11549, [4285]); (11550, [4286]); (11551, [4287]);
  (11552, [4288]); (11553, [4289]); (11554, [4290]); (11555, [4291]);
  (11556, [4292]); (11557, [4293]); (11559, [4295]); (11565, [4301]);
  (42561, [42560]); (42563, [42562]); (42565, [42564]); (42567, [42566]);
  (42569, [42568]); (42571, [42570]); (42573, [42572]); (42575, [42574]);
  (42577, [42576]); (42579, [42578]); (42581, [42580]); (42583, [42582]);
  (42585, [42584]); (42587, [42586]); (42589, [42588]); (42591, [42590]);
  (42593, [42592]); (42595, [42594]); (42597, [42596]); (42599, [42598]);
  (42601, [42600]); (42603, [42602]); (42605, [42604]); (42625, [42624]);
  (42627, [42626]); (42629, [42628]); (42631, [42630]); (42633, [42632]);
  (42635, [42634]); (42637, [42636]); (42639, [42638]); (42641, [42640]);
  (42643, [42642]); (42645, [42644]); (42647, [42646]); (42649, [42648]);
  (42651, [42650]); (42787, [42786]); (42789, [42788]); (42791, [42790]);
  (42793, [42792]); (42795, [42794]); (42797, [42796]); (42799, [42798]);
  (42803, [42802]); (42805, [42804]); (42807, [42806]); (42809, [42808]);
  (42811, [42810]); (42813, [42812]); (42815, [42814]); (42817, [42816]);
  (42819, [42818]); (42821, [42820]); (42823, [42822]); (42825, [42824]);
  (42827, [42826]); (42829, [42828]); (42831, [42830]); (42833, [42832]);
  (42835, [42834]); (42837, [42836]); (42839, [42838]); (42841, [42840]);
  (42843, [42842]); (42845, [42844]); (42847, [42846]); (42849, [42848]);
  (42851, [42850]); (42853, [42852]); (42855, [42854]); (42857, [42856]);
  (42859, [42858]); (42861, [42860]); (42863, [42862]); (42874, [42873]);
  (42876, [42875]); (42879, [42878]); (42881, [42880]); (42883, [42882]);
  (42885, [42884]); (42887, [42886]); (42892, [42891]); (42897, [42896]);
  (42899, [42898]); (42900, [42948]); (42903, [42902]); (42905, [42904]);
  (42907, [42906]); (42909, [42908]); (42911, [42910]); (42913, [42912]);
  (42915, [42914]); (42917, [42916]); (42919, [42918]); (42921, [42920]);
  (42933, [42932]); (42935, [42934]); (42937, [42936]); (42939, [42938]);
  (42941, [42940]); (42943, [42942]); (42945, [42944]); (42947, [42946]);
  (42952, [42951]); (42954, [42953]); (42961, [42960]); (42967, [42966]);
  (42969, [42968]); (42998, [42997]); (43859, [42931]); (43888, [5024]);
  (43889, [5025]); (43890, [5026]); (43891, [5027]); (43892, [5028]);
  (43893, [5029]); (43894, [5030]); (43895, [5031]); (43896, [5032]);
  (43897, [5033]); (43898, [5034]); (43899, [5035]); (43900, [5036]);
  (43901, [5037]); (43902, [5038]); (43903, [5039]); (43904, [5040]);
  (43905, [5041]); (43906, [5042]); (43907, [5043]); (43908, [5044]);
  (43909, [5045]); (43910, [5046]); (43911, [5047]); (43912, [5048]);
  (43913, [5049]); (43914, [5050]); (43915, [5051]); (43916, [5052]);
  (43917, [5053]); (43918, [5054]); (43919, [5055]); (43920, [5056]);
  (43921, [5057]); (43922, [5058]); (43923, [5059]); (43924, [5060]);
  (43925, [5061]); (43926, [5062]); (43927, [5063]); (43928, [5064]);
  (43929, [5065]); (43930, [5066]); (43931, [5067]); (43932, [5068]);
  (43933, [5069]); (43934, [5070]); (43935, [5071]); (43936, [5072]);
  (43937, [5073]); (43938, [5074]); (43939, [5075]); (43940, [5076]);
  (43941, [5077]); (43942, [5078]); (43943, [5079]); (43944, [5080]);
  (43945, [5081]); (43946, [5082]); (43947, [5083]); (43948, [5084]);
  (43949, [5085]); (43950, [5086]); (43951, [5087]); (43952, [5088]);
  (43953, [5089]); (43954, [5090]); (43955, [5091]); (43956, [5092]);
  (43957, [5093]); (43958, [5094]); (43959, [5095]); (43960, [5096]);
  (43961, [5097]); (43962, [5098]); (43963, [5099]); (43964, [5100]);
  (43965, [5101]); (43966, [5102]); (43967, [5103]); (64256, [70; 70]);
  (64257, [70; 73]); (64258, [70; 76]); (64259, [70; 70; 73]);
  (64260, [70; 70; 76]); (64261, [83; 84]); (64262, [83; 84]);
  (64275, [1348; 1350]); (64276, [1348; 1333]); (64277, [1348; 1339]);
  (64278, [1358; 1350]); (64279, [1348; 1341]); (65345, [65313]);
  (65346, [65314]); (65347, [65315]); (65348, [65316]); (65349, [65317]);
  (65350, [65318]); (65351, [65319]); (65352, [65320]); (65353, [65321]);
  (65354, [65322]); (65355, [65323]); (65356, [65324]); (65357, [65325]);
  (65358, [65326]); (65359, [65327]); (65360, [65328]); (65361, [65329]);
  (65362, [65330]); (65363, [65331]); (65364, [65332]); (65365, [65333]);
  (65366, [65334]); (65367, [65335]); (65368, [65336]); (65369, [65337]);
  (65370, [65338]); (66600, [66560]); (66601, [66561]); (66602, [66562]);
  (66603, [66563]); (66604, [66564]); (66605, [66565]); (66606, [66566]);
  (66607, [66567]); (66608, [66568]); (66609, [66569]); (66610, [66570]);
  (66611, [66571]); (66612, [66572]); (66613, [66573]); (66614, [66574]);
  (66615, [66575]); (66616, [66576]); (66617, [66577]); (66618, [66578]);
  (66619, [66579]); (66620, [66580]); (66621, [66581]); (66622, [66582]);
  (66623, [66583]); (66624, [66584]); (66625, [66585]); (66626, [66586]);
  (66627, [66587]); (66628, [66588]); (66629, [66589]); (66630, [66590]);
  (66631, [66591]); (66632, [66592]); (66633, [66593]); (66634, [66594]);
  (66635, [66595]); (66636, [66596]); (66637, [66597]); (66638, [66598]);
  (66639, [66599]); (66776, [66736]); (66777, [66737]); (66778, [66738]);
  (66779, [66739]); (66780, [66740]); (66781, [66741]); (66782, [66742]);
  (66783, [66743]); (66784, [66744]); (66785, [66745]); (66786, [66746]);
  (66787, [66747]); (66788, [66748]); (66789, [66749]); (66790, [66750]);
  (66791, [66751]); (66792, [66752]); (66793, [66753]); (66794, [66754]);
  (66795, [66755]); (66796, [66756]); (66797, [66757]); (66798, [66758]);
  (66799, [66759]); (66800, [66760]); (66801, [66761]); (66802, [66762]);
  (66803, [66763]); (66804, [66764]); (66805, [66765]); (66806, [66766]);
  (66807, [66767]); (66808, [66768]); (66809, [66769]); (66810, [66770]);
  (66811, [66771]); (66967, [66928]); (66968, [66929]); (66969, [66930]);
  (66970, [66931]); (66971, [66932]); (66972, [66933]); (66973, [66934]);
  (66974, [66935]); (66975, [66936]); (66976, [66937]); (66977, [66938]);
  (66979, [66940]); (66980, [66941]); (66981, [66942]); (66982, [66943]);
  (66983, [66944]); (66984, [66945]); (66985, [66946]); (66986, [66947]);
  (66987, [66948]); (66988, [66949]); (66989, [66950]); (66990, [66951]);
  (66991, [66952]); (66992, [66953]); (66993, [66954]); (66995, [66956]);
  (66996, [66957]); (66997, [66958]); (66998, [66959]); (66999, [66960]);
  (67000, [66961]); (67001, [66962]); (67003, [66964]); (67004, [66965]);
  (68800, [68736]); (68801, [68737]); (68802, [68738]); (68803, [68739]);
  (68804, [68740]); (68805, [68741]); (68806, [68742]); (68807, [68743]);
  (68808, [68744]); (68809, [68745]); (68810, [68746]); (68811, [68747]);
  (68812, [68748]); (68813, [68749]); (68814, [68750]); (68815, [68751]);
  (68816, [68752]); (68817, [68753]); (68818, [68754]); (68819, [68755]);
  (68820, [68756]); (68821, [68757]); (68822, [68758]); (68823, [68759]);
  (68824, [68760]); (68825, [68761]); (68826, [68762]); (68827, [68763]);
  (68828, [68764]); (68829, [68765]); (68830, [68766]); (68831, [68767]);
  (68832, [68768]); (68833, [68769]); (68834, [68770]); (68835, [68771]);
  (68836, [68772]); (68837, [68773]); (68838, [68774]); (68839, [68775]);
  (68840, [68776]); (68841, [68777]); (68842, [68778]); (68843, [68779]);
  (68844, [68780]); (68845, [68781]); (68846, [68782]); (68847, [68783]);
  (68848, [68784]); (68849, [68785]); (68850, [68786]); (71872, [71840]);
  (71873, [71841]); (71874, [71842]); (71875, [71843]); (71876, [71844]);
  (71877, [71845]); (71878, [71846]); (71879, [71847]); (71880, [71848]);
  (71881, [71849]); (71882, [71850]); (71883, [71851]); (71884, [71852]);
  (71885, [71853]); (71886, [71854]); (71887, [71855]); (71888, [71856]);
  (71889, [71857]); (71890, [71858]); (71891, [71859]); (71892, [71860]);
  (71893, [71861]); (71894, [71862]); (71895, [71863]); (71896, [71864]);
  (71897, [71865]); (71898, [71866]); (71899, [71867]); (71900, [71868]);
  (71901, [71869]); (71902, [71870]); (71903, [71871]); (93792, [93760]);
  (93793, [93761]); (93794, [93762]); (93795, [93763]); (93796, [93764]);
  (93797, [93765]); (93798, [93766]); (93799, [93767]); (93800, [93768]);
  (93801, [93769]); (93802, [93770]); (93803, [93771]); (93804, [93772]);
  (93805, [93773]); (93806, [93774]); (93807, [93775]); (93808, [93776]);
  (93809, [93777]); (93810, [93778]); (93811, [93779]); (93812, [93780]);
  (93813, [93781]); (93814, [93782]); (93815, [93783]); (93816, [93784]);
  (93817, [93785]); (93818, [93786]); (93819, [93787]); (93820, [93788]);
  (93821, [93789]); (93822, [93790]); (93823, [93791]); (125218, [125184]);
  (125219, [125185]); (125220, [125186]); (125221, [125187]);
  (125222, [125188]); (125223, [125189]); (125224, [125190]);
  (125225, [125191]); (125226, [125192]); (125227, [125193]);
  (125228, [125194]); (125229, [125195]); (125230, [125196]);
  (125231, [125197]); (125232, [125198]); (125233, [125199]);
  (125234, [125200]); (125235, [125201]); (125236, [125202]);
  (125237, [125203]); (125238, [125204]); (125239, [125205]);
  (125240, [125206]); (125241, [125207]); (125242, [125208]);
  (125243, [125209]); (125244, [125210]); (125245, [125211]);
  (125246, [125212]); (125247, [125213]); (125248, [125214]);
  (125249, [125215]); (125250, [125216]); (125251, [125217])])%N.

(** The code points with the property Cased, as inclusive ranges. *)
Definition CASED_RANGES : list (N * N) := ([
  (65, 90); (97, 122); (170, 170); (181, 181); (186, 186); (192, 214);
  (216, 246); (248, 442); (444, 447); (452, 659); (661, 696); (704, 705);
  (736, 740); (837, 837); (880, 883); (886, 887); (890, 893); (895, 895);
  (902, 902); (904, 906); (908, 908); (910, 929); (931, 1013); (1015, 1153);
  (1162, 1327); (1329, 1366); (1376, 1416); (4256, 4293); (4295, 4295);
  (4301, 4301); (4304, 4346); (4349, 4351); (5024, 5109); (5112, 5117);
  (7296, 7304); (7312, 7354); (7357, 7359); (7424, 7615); (7680, 7957);
  (7960, 7965); (7968, 8005); (8008, 8013); (8016, 8023); (8025, 8025);
  (8027, 8027); (8029, 8029); (8031, 8061); (8064, 8116); (8118, 8124);
  (8126, 8126); (8130, 8132); (8134, 8140); (8144, 8147); (8150, 8155);
  (8160, 8172); (8178, 8180); (8182, 8188); (8305, 8305); (8319, 8319);
  (8336, 8348); (8450, 8450); (8455, 8455); (8458, 8467); (8469, 8469);
  (8473, 8477); (8484, 8484); (8486, 8486); (8488, 8488); (8490, 8493);
  (8495, 8500); (8505, 8505); (8508, 8511); (8517, 8521); (8526, 8526);
  (8544, 8575); (8579, 8580); (9398, 9449); (11264, 11492); (11499, 11502);
  (11506, 11507); (11520, 11557); (11559, 11559); (11565, 11565);
  (42560, 42605); (42624, 42653); (42786, 42887); (42891, 42894);
  (42896, 42954); (42960, 42961); (42963, 42963); (42965, 42969);
  (42997, 42998); (43000, 43002); (43824, 43866); (43868, 43880);
  (43888, 43967); (64256, 64262); (64275, 64279); (65313, 65338);
  (65345, 65370); (66560, 66639); (66736, 66771); (66776, 66811);
  (66928, 66938); (66940, 66954); (66956, 66962); (66964, 66965);
  (66967, 66977); (66979, 66993); (66995, 67001); (67003, 67004);
  (67456, 67456); (67459, 67461); (67463, 67504); (67506, 67514);
  (68736, 68786); (68800, 68850); (71840, 71903); (93760, 93823);
  (119808, 119892); (119894, 119964); (119966, 119967); (119970, 119970);
  (119973, 119974); (119977, 119980); (119982, 119993); (119995, 119995);
  (119997, 120003); (120005, 120069); (120071, 120074); (120077, 120084);
  (120086, 120092); (120094, 120121); (120123, 120126); (120128, 120132);
  (120134, 120134); (120138, 120144); (120146, 120485); (120488, 120512);
  (120514, 120538); (120540, 120570); (120572, 120596); (120598, 120628);
  (120630, 120654); (120656, 120686); (120688, 120712); (120714, 120744);
  (120746, 120770); (120772, 120779); (122624, 122633); (122635, 122654);
  (125184, 125251); (127280, 127305); (127312, 127337); (127344, 127369)])%N.

(** The code points with the property Case_Ignorable, as inclusive ranges. *)
Definition CASE_IGNORABLE_RANGES : list (N * N) := ([
  (39, 39); (46, 46); (58, 58); (94, 94); (96, 96); (168, 168); (173, 173);
  (175, 175); (180, 180); (183, 184); (688, 879); (884, 885); (890, 890);
  (900, 901); (903, 903); (1155, 1161); (1369, 1369); (1375, 1375);
  (1425, 1469); (1471, 1471); (1473, 1474); (1476, 1477); (1479, 1479);
  (1524, 1524); (1536, 1541); (1552, 1562); (1564, 1564); (1600, 1600);
  (1611, 1631); (1648, 1648); (1750, 1757); (1759, 1768); (1770, 1773);
  (1807, 1807); (1809, 1809); (1840, 1866); (1958, 1968); (2027, 2037);
  (2042, 2042); (2045, 2045); (2070, 2093); (2137, 2139); (2184, 2184);
  (2192, 2193); (2200, 2207); (2249, 2306); (2362, 2362); (2364, 2364);
  (2369, 2376); (2381, 2381); (2385, 2391); (2402, 2403); (2417, 2417);
  (2433, 2433); (2492, 2492); (2497, 2500); (2509, 2509); (2530, 2531);
  (2558, 2558); (2561, 2562); (2620, 2620); (2625, 2626); (2631, 2632);
  (2635, 2637); (2641, 2641); (2672, 2673); (2677, 2677); (2689, 2690);
  (2748, 2748); (2753, 2757); (2759, 2760); (2765, 2765); (2786, 2787);
  (2810, 2815); (2817, 2817); (2876, 2876); (2879, 2879); (2881, 2884);
  (2893, 2893); (2901, 2902); (2914, 2915); (2946, 2946); (3008, 3008);
  (3021, 3021); (3072, 3072); (3076, 3076); (3132, 3132); (3134, 3136);
  (3142, 3144); (3146, 3149); (3157, 3158); (3170, 3171); (3201, 3201);
  (3260, 3260); (3263, 3263); (3270, 3270); (3276, 3277); (3298, 3299);
  (3328, 3329); (3387, 3388); (3393, 3396); (3405, 3405); (3426, 3427);
  (3457, 3457); (3530, 3530); (3538, 3540); (3542, 3542); (3633, 3633);
  (3636, 3642); (3654, 3662); (3761, 3761); (3764, 3772); (3782, 3782);
  (3784, 3789); (3864, 3865); (3893, 3893); (3895, 3895); (3897, 3897);
  (3953, 3966); (3968, 3972); (3974, 3975); (3981, 3991); (3993, 4028);
  (4038, 4038); (4141, 4144); (4146, 4151); (4153, 4154); (4157, 4158);
  (4184, 4185); (4190, 4192); (4209, 4212); (4226, 4226); (4229, 4230);
  (4237, 4237); (4253, 4253); (4348, 4348); (4957, 4959); (5906, 5908);
  (5938, 5939); (5970, 5971); (6002, 6003); (6068, 6069); (6071, 6077);
  (6086, 6086); (6089, 6099); (6103, 6103); (6109, 6109); (6155, 6159);
  (6211, 6211); (6277, 6278); (6313, 6313); (6432, 6434); (6439, 6440);
  (6450, 6450); (6457, 6459); (6679, 6680); (6683, 6683); (6742, 6742);
  (6744, 6750); (6752, 6752); (6754, 6754); (6757, 6764); (6771, 6780);
  (6783, 6783); (6823, 6823); (6832, 6862); (6912, 6915); (6964, 6964);
  (6966, 6970); (6972, 6972); (6978, 6978); (7019, 7027); (7040, 7041);
  (7074, 7077); (7080, 7081); (7083, 7085); (7142, 7142); (7144, 7145);
  (7149, 7149); (7151, 7153); (7212, 7219); (7222, 7223); (7288, 7293);
  (7376, 7378); (7380, 7392); (7394, 7400); (7405, 7405); (7412, 7412);
  (7416, 7417); (7468, 7530); (7544, 7544); (7579, 7679); (8125, 8125);
  (8127, 8129); (8141, 8143); (8157, 8159); (8173, 8175); (8189, 8190);
  (8203, 8207); (8216, 8217); (8228, 8228); (8231, 8231); (8234, 8238);
  (8288, 8292); (8294, 8303); (8305, 8305); (8319, 8319); (8336, 8348);
  (8400, 8432); (11388, 11389); (11503, 11505); (11631, 11631);
  (11647, 11647); (11744, 11775); (11823, 11823); (12293, 12293);
  (12330, 12333); (12337, 12341); (12347, 12347); (12441, 12446);
  (12540, 12542); (40981, 40981); (42232, 42237); (42508, 42508);
  (42607, 42610); (42612, 42621); (42623, 42623); (42652, 42655);
  (42736, 42737); (42752, 42785); (42864, 42864); (42888, 42890);
  (42994, 42996); (43000, 43001); (43010, 43010); (43014, 43014);
  (43019, 43019); (43045, 43046); (43052, 43052); (43204, 43205);
  (43232, 43249); (43263, 43263); (43302, 43309); (43335, 43345);
  (43392, 43394); (43443, 43443); (43446, 43449); (43452, 43453);
  (43471, 43471); (43493, 43494); (43561, 43566); (43569, 43570);
  (43573, 43574); (43587, 43587); (43596, 43596); (43632, 43632);
  (43644, 43644); (43696, 43696); (43698, 43700); (43703, 43704);
  (43710, 43711); (43713, 43713); (43741, 43741); (43756, 43757);
  (43763, 43764); (43766, 43766); (43867, 43871); (43881, 43883);
  (44005, 44005); (44008, 44008); (44013, 44013); (64286, 64286);
  (64434, 64450); (65024, 65039); (65043, 65043); (65056, 65071);
  (65106, 65106); (65109, 65109); (65279, 65279); (65287, 65287);
  (65294, 65294); (65306, 65306); (65342, 65342); (65344, 65344);
  (65392, 65392); (65438, 65439); (65507, 65507); (65529, 65531);
  (66045, 66045); (66272, 66272); (66422, 66426); (67456, 67461);
  (67463, 67504); (67506, 67514); (68097, 68099); (68101, 68102);
  (68108, 68111); (68152, 68154); (68159, 68159); (68325, 68326);
  (68900, 68903); (69291, 69292); (69446, 69456); (69506, 69509);
  (69633, 69633); (69688, 69702); (69744, 69744); (69747, 69748);
  (69759, 69761); (69811, 69814); (69817, 69818); (69821, 69821);
  (69826, 69826); (69837, 69837); (69888, 69890); (69927, 69931);
  (69933, 69940); (70003, 70003); (70016, 70017); (70070, 70078);
  (70089, 70092); (70095, 70095); (70191, 70193); (70196, 70196);
  (70198, 70199); (70206, 70206); (70367, 70367); (70371, 70378);
  (70400, 70401); (70459, 70460); (70464, 70464); (70502, 70508);
  (70512, 70516); (70712, 70719); (70722, 70724); (70726, 70726);
  (70750, 70750); (70835, 70840); (70842, 70842); (70847, 70848);
  (70850, 70851); (71090, 71093); (71100, 71101); (71103, 71104);
  (71132, 71133); (71219, 71226); (71229, 71229); (71231, 71232);
  (71339, 71339); (71341, 71341); (71344, 71349); (71351, 71351);
  (71453, 71455); (71458, 71461); (71463, 71467); (71727, 71735);
  (71737, 71738); (71995, 71996); (71998, 71998); (72003, 72003);
  (72148, 72151); (72154, 72155); (72160, 72160); (72193, 72202);
  (72243, 72248); (72251, 72254); (72263, 72263); (72273, 72278);
  (72281, 72283); (72330, 72342); (72344, 72345); (72752, 72758);
  (72760, 72765); (72767, 72767); (72850, 72871); (72874, 72880);
  (72882, 72883); (72885, 72886); (73009, 73014); (73018, 73018);
  (73020, 73021); (73023, 73029); (73031, 73031); (73104, 73105);
  (73109, 73109); (73111, 73111); (73459, 73460); (78896, 78904);
  (92912, 92916); (92976, 92982); (92992, 92995); (94031, 94031);
  (94095, 94111); (94176, 94177); (94179, 94180); (110576, 110579);
  (110581, 110587); (110589, 110590); (113821, 113822); (113824, 113827);
  (118528, 118573); (118576, 118598); (119143, 119145); (119155, 119170);
  (119173, 119179); (119210, 119213); (119362, 119364); (121344, 121398);
  (121403, 121452); (121461, 121461); (121476, 121476); (121499, 121503);
  (121505, 121519); (122880, 122886); (122888, 122904); (122907, 122913);
  (122915, 122916); (122918, 122922); (123184, 123197); (123566, 123566);
  (123628, 123631); (125136, 125142); (125252, 125259); (127995, 127999);
  (917505, 917505); (917536, 917631); (917760, 917999)])%N.

Definition in_ranges (c : N) (rs : list (N * N)) : bool :=
  existsb (fun r => (r.1 <=? c) && (c <=? r.2))%N rs.

Definition is_cased (c : N) : bool := in_ranges c CASED_RANGES.

Definition is_case_ignorable (c : N) : bool := in_ranges c CASE_IGNORABLE_RANGES.

(** [chr(c).lower()] and [chr(c).upper()]. *)
Definition lower_cp (c : N) : pystr :=
  match dict_get c LOWER_TABLE with Some l => l | None => [c] end.

Definition upper_cp (c : N) : pystr :=
  match dict_get c UPPER_TABLE with Some l => l | None => [c] end.

(** The first code point that is not Case_Ignorable. *)
Fixpoint skip_case_ignorable (l : pystr) : option N :=
  match l with
  | [] => None
  | c :: r => if is_case_ignorable c then skip_case_ignorable r else Some c
  end.

(** [handle_capital_sigma]: [before] is the text before the U+03A3, nearest
    code point first, [after] the text after it. *)
Definition final_sigma (before after : pystr) : bool :=
  match skip_case_ignorable before with
  | Some c =>
      is_cased c &&
      match skip_case_ignorable after with
      | Some c' => negb (is_cased c')
      | None => true
      end
  | None => false
  end.

Fixpoint lower_from (before s : pystr) : pystr :=
  match s with
  | [] => []
  | c :: r =>
      (if (c =? 931)%N then [if final_sigma before r then 962%N else 963%N]
       else lower_cp c) ++ lower_from (c :: before) r
  end.

Definition py_lower (s : pystr) : pystr := lower_from [] s.

Definition py_upper (s : pystr) : pystr := s ≫= upper_cp.

(** ** Static tables *)

Definition HISTORICAL_COUNTRIES : list pystr :=
  map py [
  "Soviet Union"; "Yugoslavia"; "East Germany"; "Czechoslovakia";
  "German Democratic Republic"; "Socialist Federal Republic of Yugoslavia";
  "Commonwealth of Independent States"; "Serbia and Montenegro"; "CIS";
  "Union of Soviet Socialist Republics"].

(** [COUNTRY_CODE_MAP] in insertion order.  The literal lists the key
    "Albania" twice with the same value; the dict keeps it once, at the
    position of its first occurrence. *)
Definition COUNTRY_CODE_MAP : list (pystr * pystr) :=
  map (fun '(k, v) => (py k, py v)) [
  ("United States", "USA");
  ("United States of America", "USA");
  ("China", "CHN");
  ("People's Republic of China", "CHN");
  ("Russia", "RUS");
  ("South Korea", "KOR");
  ("Republic of Korea", "KOR");
  ("Hungary", "HUN");
  ("Romania", "ROU");
  ("Vietnam", "VNM");
  ("United Kingdom", "GBR");
  ("Bulgaria", "BGR");
  ("Germany", "DEU");
  ("Iran", "IRN");
  ("Islamic Republic of Iran", "IRN");
  ("Japan", "JPN");
  ("Taiwan", "TWN");
  ("Ukraine", "UKR");
  ("Canada", "CAN");
  ("Poland", "POL");
  ("Thailand", "THA");
  ("Australia", "AUS");
  ("Singapore", "SGP");
  ("France", "FRA");
  ("Israel", "ISR");
  ("Turkey", "TUR");
  (("T" ++ String (ascii_of_nat 195) (String (ascii_of_nat 188) "rkiye"))%string, "TUR");
  ("Italy", "ITA");
  ("India", "IND");
  ("North Korea", "PRK");
  ("Democratic People's Republic of Korea", "PRK");
  ("Belarus", "BLR");
  ("Kazakhstan", "KAZ");
  ("Hong Kong", "HKG");
  ("Serbia", "SRB");
  ("Brazil", "BRA");
  ("Austria", "AUT");
  ("Netherlands", "NLD");
  ("Mongolia", "MNG");
  ("Peru", "PER");
  ("Slovakia", "SVK");
  ("Czech Republic", "CZE");
  ("Sweden", "SWE");
  ("Mexico", "MEX");
  ("Croatia", "HRV");
  ("Indonesia", "IDN");
  ("Argentina", "ARG");
  ("Georgia", "GEO");
  ("Malaysia", "MYS");
  ("Greece", "GRC");
  ("Moldova", "MDA");
  ("Philippines", "PHL");
  ("Switzerland", "CHE");
  ("Bosnia and Herzegovina", "BIH");
  ("Norway", "NOR");
  ("North Macedonia", "MKD");
  ("Portugal", "PRT");
  ("Belgium", "BEL");
  ("New Zealand", "NZL");
  ("Lithuania", "LTU");
  ("Macau", "MAC");
  ("Luxembourg", "LUX");
  ("Armenia", "ARM");
  ("Colombia", "COL");
  ("South Africa", "ZAF");
  ("Finland", "FIN");
  ("Latvia", "LVA");
  ("Slovenia", "SVN");
  ("Bangladesh", "BGD");
  ("Cuba", "CUB");
  ("Denmark", "DNK");
  ("Tunisia", "TUN");
  ("Kyrgyzstan", "KGZ");
  ("Algeria", "DZA");
  ("Uzbekistan", "UZB");
  ("Saudi Arabia", "SAU");
  ("Estonia", "EST");
  ("Spain", "ESP");
  ("Azerbaijan", "AZE");
  ("Turkmenistan", "TKM");
  ("Cyprus", "CYP");
  ("Tajikistan", "TJK");
  ("Syria", "SYR");
  ("Morocco", "MAR");
  ("Ireland", "IRL");
  ("Chile", "CHL");
  ("Montenegro", "MNE");
  ("Albania", "ALB");
  ("Pakistan", "PAK");
  ("Trinidad and Tobago", "TTO");
  ("Venezuela", "VEN");
  ("Costa Rica", "CRI");
  ("Iceland", "ISL");
  ("Paraguay", "PRY");
  ("El Salvador", "SLV");
  ("Liechtenstein", "LIE");
  ("Ivory Coast", "CIV");
  ("Sri Lanka", "LKA");
  ("Ecuador", "ECU");
  ("Afghanistan", "AFG");
  ("Bahrain", "BHR");
  ("Benin", "BEN");
  ("Bolivia", "BOL");
  ("Botswana", "BWA");
  ("Brunei", "BRN");
  ("Burkina Faso", "BFA");
  ("Cambodia", "KHM");
  ("Egypt", "EGY");
  ("Gambia", "GMB");
  ("Ghana", "GHA");
  ("Guatemala", "GTM");
  ("Honduras", "HND");
  ("Iraq", "IRQ");
  ("Kenya", "LKA");
  ("Kosovo", "KSV");
  ("Kuwait", "KWT");
  ("Madagascar", "MDG");
  ("Mauritania", "MRT");
  ("Mozambique", "MOZ");
  ("Myanmar", "MMR");
  ("Nepal", "NPL");
  ("Nicaragua", "NIC");
  ("Nigeria", "NGA");
  ("Panama", "PAN");
  ("Puerto Rico", "PRI");
  ("Qatar", "QAT");
  ("Senegal", "SEN");
  ("Suriname", "SUR");
  ("Tanzania", "TZA");
  ("Uganda", "UGA");
  ("United Arab Emirates", "ARE");
  ("Uruguay", "URY");
  ("Zimbabwe", "ZWE");
  ("Jordan", "JOR");
  ("Malta", "MLT");
  ("Palestine", "PSE");
  ("Dominican Republic", "DOM");
  ("Gabon", "GAB");
  ("Libya", "LBY");
  ("Mauritius", "MUS");
  ("Rwanda", "RWA")].

(** ** Name resolution: lines 372-389 of [normalize_country_names] *)

(** The fallback scan of lines 378-384: first entry, in insertion order,
    whose name contains the label or is contained in it, ignoring case. *)
Fixpoint partial_match (country_name : pystr) (entries : list (pystr * pystr))
  : option pystr :=
  match entries with
  | [] => None
  | (name, iso_code) :: r =>
      if py_in (py_lower name) (py_lower country_name)
         || py_in (py_lower country_name) (py_lower name)
      then Some iso_code
      else partial_match country_name r
  end.

Definition warning_line (country_name : pystr) : pystr :=
  py "Warning: No ISO code found for '" ++ country_name ++ py "'".

(** The code computed for one label, with the lines printed on the way. *)
Definition resolve (country_name : pystr) : pystr * list pystr :=
  let code := dict_get country_name COUNTRY_CODE_MAP in
  let code := if truthy code then code
              else match partial_match country_name COUNTRY_CODE_MAP with
                   | Some c => Some c
                   | None => code
                   end in
  match code with
  | Some c => if truthy code then (c, [])
              else (py_upper (py_slice_to 3 country_name), [warning_line country_name])
  | None => (py_upper (py_slice_to 3 country_name), [warning_line country_name])
  end.

(** ** Medal tallies *)

(** A medals dict [{"gold", "silver", "bronze", "total"}]; Python ints. *)
Record tally := mk_tally { gold : Z; silver : Z; bronze : Z; total : Z }.

Definition zero_tally : tally := mk_tally 0 0 0 0.

(** Lines 240-247 (and 295-302, 350-357): the tally of one source row. *)
Definition row_tally (g s b : Z) : tally := mk_tally g s b (g + s + b)%Z.

(** ** Per-source normaliser: [normalize_country_names] *)

(** The dict returned: code -> (name, medals), with the printed lines. *)
Abbreviation normalized_map := (gmap pystr (pystr * tally)).

(** One iteration of the loop of lines 372-399. *)
Definition normalize_step (st : normalized_map * list pystr)
    (item : pystr * tally) : normalized_map * list pystr :=
  let '(normalized, out) := st in
  let '(country_name, medals) := item in
  let '(code, printed) := resolve country_name in
  match normalized !! code with
  | Some (existing_name, _) =>
      if decide (length existing_name <= length country_name)
      then (normalized, out ++ printed)
      else (<[code := (country_name, medals)]> normalized, out ++ printed)
  | None => (<[code := (country_name, medals)]> normalized, out ++ printed)
  end.

Definition normalize_country_names (data_dict : list (pystr * tally))
  : normalized_map * list pystr :=
  fold_left normalize_step data_dict (∅, []).

(** ** Cross-source aggregator: [aggregate_data] *)

Record country := mk_country {
  code : pystr;
  name : option pystr;   (* [None] when every source name is falsy *)
  imo : tally; ioi : tally; ipho : tally; combined : tally }.

(** The body of the loop of lines 424-471 for one code. *)
Definition build_entry (imo_n ioi_n ipho_n : normalized_map) (c : pystr)
  : country :=
  let imo_info := imo_n !! c in
  let ioi_info := ioi_n !! c in
  let ipho_info := ipho_n !! c in
  let country_name :=
    py_or (fst <$> imo_info) (py_or (fst <$> ioi_info) (fst <$> ipho_info)) in
  let imo_medals := default zero_tally (snd <$> imo_info) in
  let ioi_medals := default zero_tally (snd <$> ioi_info) in
  let ipho_medals := default zero_tally (snd <$> ipho_info) in
  let combined_total := (total imo_medals + total ioi_medals + total ipho_medals)%Z in
  let combined_gold := (gold imo_medals + gold ioi_medals + gold ipho_medals)%Z in
  let combined_silver := (silver imo_medals + silver ioi_medals + silver ipho_medals)%Z in
  let combined_bronze := (bronze imo_medals + bronze ioi_medals + bronze ipho_medals)%Z in
  mk_country c country_name imo_medals ioi_medals ipho_medals
    (mk_tally combined_gold combined_silver combined_bronze combined_total).

Definition sort_key (x : country) : Z := total (combined x).

(** [list.sort(key=..., reverse=True)]: a stable sort on decreasing keys;
    an element goes before the later elements of equal key. *)
Fixpoint insert_desc (x : country) (l : list country) : list country :=
  match l with
  | [] => [x]
  | y :: l' => if (sort_key y <=? sort_key x)%Z then x :: l else y :: insert_desc x l'
  end.

Fixpoint sort_desc (l : list country) : list country :=
  match l with
  | [] => []
  | x :: l' => insert_desc x (sort_desc l')
  end.

(** Iteration over the Python set [all_codes] visits each code once in an
    order fixed by string hashing; [elements] stands for that order. *)
Definition aggregate_data (imo_data ioi_data ipho_data : list (pystr * tally))
  : list country :=
  let imo_normalized := (normalize_country_names imo_data).1 in
  let ioi_normalized := (normalize_country_names ioi_data).1 in
  let ipho_normalized := (normalize_country_names ipho_data).1 in
  let all_codes : gset pystr :=
    dom imo_normalized ∪ dom ioi_normalized ∪ dom ipho_normalized in
  sort_desc (map (build_entry imo_normalized ioi_normalized ipho_normalized)
                 (elements all_codes)).

(** ** Source parsers: the row loops of [parse_imo_data], [parse_ioi_data]
    and [parse_ipho_data]

    Fetching the page and walking the HTML stay outside the model.  A row
    is given by its cells: for each cell, [int(cell.get_text(strip=True))]
    ([None] when [int] raises [ValueError]); indexing past the last cell is
    the [IndexError] of the source.  [None] for the whole table is the
    "Could not find table" branch, which returns [{}]. *)
Record imo_row := mk_imo_row {
  imo_cells : list (option Z);
  imo_name : pystr;        (* the name extracted from the links, lines 205-217 *)
  imo_cell_text : pystr }. (* [country_cell.get_text(strip=True)] *)

Record plain_row := mk_plain_row {
  row_cells : list (option Z);
  row_name : pystr }.      (* the link text or cell text of [cells[1]] *)

(** [int(cells[i]...)] for the three medal columns, or the exception. *)
Definition medal_cells (cells : list (option Z)) (i j k : nat) : option tally :=
  match cells !! i, cells !! j, cells !! k with
  | Some (Some g), Some (Some s), Some (Some b) => Some (row_tally g s b)
  | _, _, _ => None
  end.

Fixpoint find_historical (text : pystr) (hs : list pystr) : option pystr :=
  match hs with
  | [] => None
  | h :: r => if py_in (py_lower h) (py_lower text) then Some h
              else find_historical text r
  end.

Definition imo_row_step (data : list (pystr * tally)) (row : imo_row)
  : list (pystr * tally) :=
  if decide (length (imo_cells row) < 6) then data else
  let country_name := imo_name row in
  if decide (length country_name <= 2) then data else
  let '(country_name, is_historical) :=
    match find_historical (imo_cell_text row) HISTORICAL_COUNTRIES with
    | Some h => (h, true)
    | None => (country_name, false)
    end in
  if is_historical && bool_decide (country_name ∈ HISTORICAL_COUNTRIES) then data else
  match medal_cells (imo_cells row) 2 3 4 with
  | Some t => dict_set country_name t data
  | None => data
  end.

Definition parse_imo_data (table : option (list imo_row)) : list (pystr * tally) :=
  match table with
  | None => []
  | Some rows => fold_left imo_row_step rows []
  end.

(** The loops of [parse_ioi_data] (medal cells 3-5) and [parse_ipho_data]
    (medal cells 4-6) differ only in the columns read. *)
Definition plain_row_step (i j k : nat) (data : list (pystr * tally))
    (row : plain_row) : list (pystr * tally) :=
  if decide (length (row_cells row) < 6) then data else
  let country_name := row_name row in
  if bool_decide (country_name ∈ HISTORICAL_COUNTRIES) then data else
  match medal_cells (row_cells row) i j k with
  | Some t => dict_set country_name t data
  | None => data
  end.

Definition parse_ioi_data (table : option (list plain_row)) : list (pystr * tally) :=
  match table with
  | None => []
  | Some rows => fold_left (plain_row_step 3 4 5) rows []
  end.

Definition parse_ipho_data (table : option (list plain_row)) : list (pystr * tally) :=
  match table with
  | None => []
  | Some rows => fold_left (plain_row_step 4 5 6) rows []
  end.

(** ** The alpha-2 post-process: [main] of [add_alpha2_codes.py]

    The JSON document as [json.load] returns it (the medal document has no
    floats).  Objects are Python dicts: association lists in key order. *)
Set Warnings "-register-all".
Inductive json :=
  | JNull
  | JBool (b : bool)
  | JInt (z : Z)
  | JStr (s : pystr)
  | JArr (l : list json)
  | JObj (fields : list (pystr * json)).

Definition ALPHA3_TO_ALPHA2 : list (pystr * pystr) :=
  map (fun '(k, v) => (py k, py v)) [
  ("AFG", "AF");
  ("ALB", "AL");
  ("ARE", "AE");
  ("ARG", "AR");
  ("ARM", "AM");
  ("AUS", "AU");
  ("AUT", "AT");
  ("AZE", "AZ");
  ("BEL", "BE");
  ("BEN", "BJ");
  ("BFA", "BF");
  ("BGD", "BD");
  ("BGR", "BG");
  ("BHR", "BH");
  ("BIH", "BA");
  ("BLR", "BY");
  ("BOL", "BO");
  ("BRA", "BR");
  ("BRN", "BH");
  ("BWA", "BW");
  ("CAN", "CA");
  ("CHE", "CH");
  ("CHL", "CL");
  ("CHN", "CN");
  ("CIV", "CI");
  ("COL", "CO");
  ("CRI", "CR");
  ("CUB", "CU");
  ("CYP", "CY");
  ("CZE", "CZ");
  ("DEU", "DE");
  ("DNK", "DK");
  ("DOM", "DO");
  ("DZA", "DZ");
  ("ECU", "EC");
  ("EGY", "EG");
  ("ESP", "ES");
  ("EST", "EE");
  ("FIN", "FI");
  ("FRA", "FR");
  ("GAB", "GA");
  ("GBR", "GB");
  ("GEO", "GE");
  ("GHA", "GH");
  ("GMB", "GM");
  ("GRC", "GR");
  ("GTM", "GT");
  ("HKG", "HK");
  ("HND", "HN");
  ("HRV", "HR");
  ("HUN", "HU");
  ("IDN", "ID");
  ("IND", "IN");
  ("IRL", "IE");
  ("IRN", "IR");
  ("IRQ", "IQ");
  ("ISL", "IS");
  ("ISR", "IL");
  ("ITA", "IT");
  ("JOR", "JO");
  ("JPN", "JP");
  ("KAZ", "KZ");
  ("KGZ", "KG");
  ("KHM", "KH");
  ("KOR", "KR");
  ("KSV", "XK");
  ("KWT", "KW");
  ("LBY", "LY");
  ("LIE", "LI");
  ("LKA", "LK");
  ("LTU", "LT");
  ("LUX", "LU");
  ("LVA", "LV");
  ("MAC", "MO");
  ("MAR", "MA");
  ("MDA", "MD");
  ("MDG", "MG");
  ("MEX", "MX");
  ("MKD", "MK");
  ("MLT", "MT");
  ("MMR", "MM");
  ("MNE", "ME");
  ("MNG", "MN");
  ("MOZ", "MZ");
  ("MRT", "MR");
  ("MUS", "MU");
  ("MYS", "MY");
  ("NGA", "NG");
  ("NIC", "NI");
  ("NLD", "NL");
  ("NOR", "NO");
  ("NPL", "NP");
  ("NZL", "NZ");
  ("PAK", "PK");
  ("PAN", "PA");
  ("PER", "PE");
  ("PHL", "PH");
  ("POL", "PL");
  ("PRI", "PR");
  ("PRK", "KP");
  ("PRT", "PT");
  ("PRY", "PY");
  ("PSE", "PS");
  ("QAT", "QA");
  ("ROU", "RO");
  ("RUS", "RU");
  ("RWA", "RW");
  ("SAU", "SA");
  ("SEN", "SN");
  ("SGP", "SG");
  ("SLV", "SV");
  ("SRB", "RS");
  ("SUR", "SR");
  ("SVK", "SK");
  ("SVN", "SI");
  ("SWE", "SE");
  ("SYR", "SY");
  ("THA", "TH");
  ("TJK", "TJ");
  ("TKM", "TM");
  ("TTO", "TT");
  ("TUN", "TN");
  ("TUR", "TR");
  ("TWN", "TW");
  ("TZA", "TZ");
  ("UGA", "UG");
  ("UKR", "UA");
  ("URY", "UY");
  ("USA", "US");
  ("UZB", "UZ");
  ("VEN", "VE");
  ("VNM", "VN");
  ("ZAF", "ZA");
  ("ZWE", "ZW")].

(** [code in ALPHA3_TO_ALPHA2] and the value found, for the value of
    [country.get("code")]; [None] is the [TypeError] of an unhashable key. *)
Definition alpha2_of (code_value : option json) : option (option pystr) :=
  match code_value with
  | Some (JStr s) => Some (dict_get s ALPHA3_TO_ALPHA2)
  | Some (JArr _) | Some (JObj _) => None
  | _ => Some None
  end.

(** One iteration of lines 154-160; [None] when the source raises
    ([country.get] on a value that is not a dict). *)
Definition update_country (country : json) : option json :=
  match country with
  | JObj fields =>
      match alpha2_of (dict_get (py "code") fields) with
      | None => None
      | Some None => Some country
      | Some (Some a2) => Some (JObj (dict_set (py "alpha2") (JStr a2) fields))
      end
  | _ => None
  end.

Definition json_get (k : pystr) (j : json) : option json :=
  match j with JObj fields => dict_get k fields | _ => None end.

(** Lines 152-166: the document written back, or [None] when the source
    raises before writing.  The countries are updated in place, so the
    list keeps its position under the key "countries".  Iterating an
    empty dict or string is a no-op; iterating a non-empty one reaches
    [.get] on a [str] and raises. *)
Definition add_alpha2_codes (data : json) : option json :=
  match data with
  | JObj fields =>
      match dict_get (py "countries") fields with
      | Some (JArr countries) =>
          countries' ← mapM update_country countries;
          Some (JObj (dict_set (py "countries") (JArr countries') fields))
      | Some (JObj []) | Some (JStr []) => Some data
      | _ => None
      end
  | _ => None
  end.

(** ** The document written by [main] of [scrape_data.py]

    Lines 489-513: the three parsers, the aggregation and the object
    dumped to medals.json.  [generated] is [datetime.now().isoformat()].
    [json.dump] followed by [json.load] gives this value back (it holds
    only strings, ints, null, lists and objects with distinct keys). *)
Definition tally_json (t : tally) : json :=
  JObj [(py "gold", JInt (gold t)); (py "silver", JInt (silver t));
        (py "bronze", JInt (bronze t)); (py "total", JInt (total t))].

Definition country_json (e : country) : json :=
  JObj [(py "code", JStr (code e));
        (py "name", match name e with Some n => JStr n | None => JNull end);
        (py "medals", JObj [(py "IMO", tally_json (imo e)); (py "IOI", tally_json (ioi e));
                            (py "IPhO", tally_json (ipho e));
                            (py "combined", tally_json (combined e))])].

Definition scrape_output (imo_table : option (list imo_row))
    (ioi_table ipho_table : option (list plain_row)) (generated : pystr) : json :=
  let imo_data := parse_imo_data imo_table in
  let ioi_data := parse_ioi_data ioi_table in
  let ipho_data := parse_ipho_data ipho_table in
  let aggregated := aggregate_data imo_data ioi_data ipho_data in
  JObj [(py "countries", JArr (map country_json aggregated));
        (py "metadata", JObj [(py "imo_years", JStr (py "1959-2025"));
                              (py "ioi_years", JStr (py "1989-2025"));
                              (py "ipho_years", JStr (py "1967-2025"));
                              (py "generated", JStr generated)])].

(** ** Auxiliary predicates of the proofs *)

(** Neighbours in decreasing order of combined total. *)
Fixpoint desc_sorted (l : list country) : Prop :=
  match l with
  | x :: ((y :: _) as l') => (sort_key y <= sort_key x)%Z /\ desc_sorted l'
  | _ => True
  end.

Definition tally_ok (t : tally) : Prop := total t = (gold t + silver t + bronze t)%Z.

(** What the loop of [normalize_country_names] does to the entry of one
    code [c]: a label resolving to [c] replaces the stored entry when there
    is none or when it is strictly shorter than the stored name. *)
Definition winner_step (c : pystr) (acc : option (pystr * tally))
    (item : pystr * tally) : option (pystr * tally) :=
  if decide ((resolve item.1).1 = c) then
    match acc with
    | Some (n0, _) => if decide (length n0 <= length item.1) then acc else Some item
    | None => Some item
    end
  else acc.

(** Row [i] carries the label kept for [c]: it resolves to [c], every
    earlier label resolving to [c] is strictly longer and every later one
    is not shorter. *)
Definition first_shortest (d : list (pystr * tally)) (c : pystr) (i : nat)
    (n : pystr) (m : tally) : Prop :=
  d !! i = Some (n, m) /\ (resolve n).1 = c /\
  forall j n' m', d !! j = Some (n', m') -> (resolve n').1 = c ->
    (j < i -> length n < length n') /\ (i < j -> length n <= length n').

(** The value of "alpha2" after the update of a country object. *)
Definition alpha2_after (fs : list (pystr * json)) : option json :=
  match dict_get (py "code") fs with
  | Some (JStr s) =>
      match dict_get s ALPHA3_TO_ALPHA2 with
      | Some a2 => Some (JStr a2)
      | None => dict_get (py "alpha2") fs
      end
  | _ => dict_get (py "alpha2") fs
  end.

(** * Properties *)

Lemma dict_get_value {K V} `{EqDecision K} (k : K) (v : V) (d : list (K * V)) :
  dict_get k d = Some v -> v ∈ d.*2.
Proof.
  induction d as [|[k0 v0] d IH]; simpl; [done|].
  case_decide; [intros [= ->]; by left|]. intros Hk. right. auto.
Qed.

Lemma upper_cp_nonempty (c : N) : upper_cp c <> [].
Proof.
  assert (Ht : Forall (fun v : pystr => v <> []) UPPER_TABLE.*2).
  { apply (bool_decide_eq_true_1 (Forall (fun v : pystr => v <> []) UPPER_TABLE.*2)).
    vm_compute. reflexivity. }
  rewrite Forall_forall in Ht. unfold upper_cp.
  destruct (dict_get c UPPER_TABLE) as [l|] eqn:E; [|discriminate].
  exact (Ht l (dict_get_value _ _ _ E)).
Qed.

(** ** The sort *)

Lemma insert_desc_perm (x : country) (l : list country) :
  insert_desc x l ≡ₚ x :: l.
Proof.
  induction l as [|y l IH]; simpl; [done|].
  destruct (sort_key y <=? sort_key x)%Z; [done|].
  rewrite IH. constructor.
Qed.

Lemma sort_desc_perm (l : list country) : sort_desc l ≡ₚ l.
Proof.
  induction l as [|x l IH]; simpl; [done|].
  by rewrite insert_desc_perm, IH.
Qed.

Lemma insert_desc_sorted (x : country) (l : list country) :
  desc_sorted l -> desc_sorted (insert_desc x l).
Proof.
  induction l as [|y l IH]; simpl; [done|].
  intros Hs. destruct (Z.leb_spec (sort_key y) (sort_key x)) as [Hle|Hlt].
  - simpl. destruct l; split; auto.
  - destruct l as [|z l]; simpl in *; [split; [lia|done]|].
    destruct Hs as [Hzy Hs]. specialize (IH Hs). simpl in IH.
    destruct (Z.leb_spec (sort_key z) (sort_key x)); simpl in *; split; auto; lia.
Qed.

Lemma sort_desc_sorted (l : list country) : desc_sorted (sort_desc l).
Proof.
  induction l as [|x l IH]; simpl; [done|]. by apply insert_desc_sorted.
Qed.

Lemma desc_sorted_lookup (l : list country) (i : nat) (x y : country) :
  desc_sorted l -> l !! i = Some x -> l !! S i = Some y ->
  (sort_key y <= sort_key x)%Z.
Proof.
  revert i. induction l as [|a l IH]; intros i Hs Hx Hy; [done|].
  destruct l as [|b l]; [destruct i; done|].
  destruct Hs as [Hba Hs]. destruct i as [|i].
  - simpl in Hx, Hy. injection Hx as <-. injection Hy as <-. done.
  - apply (IH i); done.
Qed.

(** ** Shape of the aggregated list *)

Lemma aggregate_data_perm (d1 d2 d3 : list (pystr * tally)) :
  aggregate_data d1 d2 d3
    ≡ₚ map (build_entry (normalize_country_names d1).1 (normalize_country_names d2).1
                        (normalize_country_names d3).1)
           (elements (dom (normalize_country_names d1).1 ∪
                      dom (normalize_country_names d2).1 ∪
                      dom (normalize_country_names d3).1)).
Proof. unfold aggregate_data. apply sort_desc_perm. Qed.

Lemma aggregate_data_elem (d1 d2 d3 : list (pystr * tally)) (e : country) :
  e ∈ aggregate_data d1 d2 d3 <->
  exists c, e = build_entry (normalize_country_names d1).1 (normalize_country_names d2).1
                            (normalize_country_names d3).1 c /\
    (c ∈ dom (normalize_country_names d1).1 \/ c ∈ dom (normalize_country_names d2).1 \/
     c ∈ dom (normalize_country_names d3).1).
Proof.
  rewrite aggregate_data_perm, list_elem_of_fmap.
  split; intros [c [Hc Hin]]; exists c; split; try done;
    revert Hin; rewrite elem_of_elements; set_solver.
Qed.

Lemma aggregate_data_codes (d1 d2 d3 : list (pystr * tally)) :
  map code (aggregate_data d1 d2 d3)
    ≡ₚ elements (dom (normalize_country_names d1).1 ∪ dom (normalize_country_names d2).1 ∪
                 dom (normalize_country_names d3).1).
Proof.
  rewrite aggregate_data_perm, map_map. simpl. by rewrite map_id.
Qed.

Lemma filter_code_none (l : list country) (c : pystr) :
  c ∉ map code l -> filter (fun e' => code e' = c) l = [].
Proof.
  induction l as [|y l IH]; intros Hc; [done|].
  rewrite map_cons, not_elem_of_cons in Hc. destruct Hc as [Hy Hc].
  rewrite filter_cons, decide_False by congruence. by apply IH.
Qed.

Lemma filter_code_single (l : list country) (e : country) :
  NoDup (map code l) -> e ∈ l -> filter (fun e' => code e' = code e) l = [e].
Proof.
  induction l as [|x l IH]; intros Hnd He; [by apply elem_of_nil in He|].
  rewrite map_cons in Hnd. apply NoDup_cons in Hnd as [Hx Hnd].
  rewrite filter_cons. apply elem_of_cons in He as [->|He].
  - rewrite decide_True by done. f_equal. by apply filter_code_none.
  - rewrite decide_False; [by apply IH|]. intros Hc.
    apply Hx. rewrite Hc. by apply list_elem_of_fmap_2.
Qed.

(** ** Invariants of the source parsers *)

Lemma dict_set_Forall {K V} `{EqDecision K} (P : K * V -> Prop)
    (k : K) (v : V) (d : list (K * V)) :
  Forall P d -> P (k, v) -> Forall P (dict_set k v d).
Proof.
  induction d as [|[k' v'] d IH]; simpl; intros Hd Hkv; [by constructor|].
  inversion Hd; subst. destruct (decide (k' = k)); constructor; auto.
Qed.

Lemma medal_cells_ok (cells : list (option Z)) (i j k : nat) (t : tally) :
  medal_cells cells i j k = Some t -> tally_ok t.
Proof.
  unfold medal_cells.
  destruct (cells !! i) as [[g|]|], (cells !! j) as [[s|]|], (cells !! k) as [[b|]|];
    intros H; try discriminate. injection H as <-. reflexivity.
Qed.

Lemma fold_imo_ok (rows : list imo_row) (data : list (pystr * tally)) :
  Forall (fun kv => tally_ok kv.2) data ->
  Forall (fun kv => tally_ok kv.2) (fold_left imo_row_step rows data).
Proof.
  revert data. induction rows as [|r rows IH]; intros data Hd; simpl; [done|].
  apply IH. unfold imo_row_step.
  repeat case_decide; try done.
  destruct (find_historical _ _); simpl; [case_bool_decide; simpl; [done|]|];
    destruct (medal_cells _ _ _ _) eqn:E; try done;
    apply dict_set_Forall; [done| |done|]; eapply medal_cells_ok; eauto.
Qed.

Lemma fold_plain_ok (i j k : nat) (rows : list plain_row) (data : list (pystr * tally)) :
  Forall (fun kv => tally_ok kv.2) data ->
  Forall (fun kv => tally_ok kv.2) (fold_left (plain_row_step i j k) rows data).
Proof.
  revert data. induction rows as [|r rows IH]; intros data Hd; simpl; [done|].
  apply IH. unfold plain_row_step.
  repeat case_decide; try done. case_bool_decide; [done|].
  destruct (medal_cells _ _ _ _) eqn:E; [|done].
  apply dict_set_Forall; [done|]. eapply medal_cells_ok; eauto.
Qed.

(** ** Claims on aggregation *)

(** C1: in the aggregated list, the combined gold, silver and bronze of a
    country are the sums of its IMO, IOI and IPhO fields and the combined
    total is the sum of the three per-source totals; every tally a source
    parser builds from a row has total = gold + silver + bronze. *)
Theorem combined_is_sum_of_sources
    (imo_data ioi_data ipho_data : list (pystr * tally))
    (imo_table : option (list imo_row)) (ioi_table ipho_table : option (list plain_row)) :
  Forall (fun e =>
      gold (combined e) = (gold (imo e) + gold (ioi e) + gold (ipho e))%Z /\
      silver (combined e) = (silver (imo e) + silver (ioi e) + silver (ipho e))%Z /\
      bronze (combined e) = (bronze (imo e) + bronze (ioi e) + bronze (ipho e))%Z /\
      total (combined e) = (total (imo e) + total (ioi e) + total (ipho e))%Z)
    (aggregate_data imo_data ioi_data ipho_data) /\
  Forall (fun kv => total kv.2 = (gold kv.2 + silver kv.2 + bronze kv.2)%Z)
    (parse_imo_data imo_table) /\
  Forall (fun kv => total kv.2 = (gold kv.2 + silver kv.2 + bronze kv.2)%Z)
    (parse_ioi_data ioi_table) /\
  Forall (fun kv => total kv.2 = (gold kv.2 + silver kv.2 + bronze kv.2)%Z)
    (parse_ipho_data ipho_table).
Proof.
  split; [|split; [|split]].
  - apply Forall_forall. intros e He.
    apply aggregate_data_elem in He as [c [-> _]].
    unfold build_entry. simpl. auto.
  - destruct imo_table; simpl; [apply fold_imo_ok|]; constructor.
  - destruct ioi_table; simpl; [apply fold_plain_ok|]; constructor.
  - destruct ipho_table; simpl; [apply fold_plain_ok|]; constructor.
Qed.

(** C3: the codes of the aggregated list are pairwise distinct, and a code
    occurs in it exactly when one of the three normalised maps has it. *)
Theorem aggregate_codes_unique_and_complete
    (imo_data ioi_data ipho_data : list (pystr * tally)) :
  NoDup (map code (aggregate_data imo_data ioi_data ipho_data)) /\
  forall c : pystr,
    c ∈ map code (aggregate_data imo_data ioi_data ipho_data) <->
    c ∈ dom (normalize_country_names imo_data).1 \/
    c ∈ dom (normalize_country_names ioi_data).1 \/
    c ∈ dom (normalize_country_names ipho_data).1.
Proof.
  split.
  - rewrite aggregate_data_codes. apply NoDup_elements.
  - intros c. rewrite aggregate_data_codes, elem_of_elements. set_solver.
Qed.

(** C5: the aggregated list is ordered by combined total, largest first:
    of two neighbours, the earlier has the larger or equal total. *)
Theorem aggregate_sorted_by_combined_total
    (imo_data ioi_data ipho_data : list (pystr * tally)) (i : nat) (x y : country) :
  aggregate_data imo_data ioi_data ipho_data !! i = Some x ->
  aggregate_data imo_data ioi_data ipho_data !! S i = Some y ->
  (total (combined y) <= total (combined x))%Z.
Proof.
  apply desc_sorted_lookup. unfold aggregate_data. apply sort_desc_sorted.
Qed.

(** C6: an empty source contributes a zero tally to every country of the
    aggregated list; and a code known to some source occurs exactly once
    (the entries with that code form the one-element list [[e]]),
    with a zero tally for every source that does not know it. *)
Theorem aggregate_absent_sources_zero
    (imo_data ioi_data ipho_data : list (pystr * tally)) (c : pystr) :
  Forall (fun e => imo e = zero_tally) (aggregate_data [] ioi_data ipho_data) /\
  Forall (fun e => ioi e = zero_tally) (aggregate_data imo_data [] ipho_data) /\
  Forall (fun e => ipho e = zero_tally) (aggregate_data imo_data ioi_data []) /\
  (c ∈ dom (normalize_country_names imo_data).1 \/
   c ∈ dom (normalize_country_names ioi_data).1 \/
   c ∈ dom (normalize_country_names ipho_data).1 ->
   exists e, filter (fun e' => code e' = c) (aggregate_data imo_data ioi_data ipho_data) = [e] /\
     (c ∉ dom (normalize_country_names imo_data).1 -> imo e = zero_tally) /\
     (c ∉ dom (normalize_country_names ioi_data).1 -> ioi e = zero_tally) /\
     (c ∉ dom (normalize_country_names ipho_data).1 -> ipho e = zero_tally)).
Proof.
  split; [|split; [|split]].
  - apply Forall_forall. intros e He.
    apply aggregate_data_elem in He as [c' [-> _]]. reflexivity.
  - apply Forall_forall. intros e He.
    apply aggregate_data_elem in He as [c' [-> _]]. reflexivity.
  - apply Forall_forall. intros e He.
    apply aggregate_data_elem in He as [c' [-> _]]. reflexivity.
  - intros Hc. eexists. split.
    + change c with (code (build_entry (normalize_country_names imo_data).1
                                        (normalize_country_names ioi_data).1
                                        (normalize_country_names ipho_data).1 c)) at 1.
      apply filter_code_single.
      * rewrite aggregate_data_codes. apply NoDup_elements.
      * apply aggregate_data_elem. exists c; split; [reflexivity|]. set_solver.
    + unfold build_entry; simpl.
      repeat split; intros Hn; apply not_elem_of_dom in Hn; by rewrite Hn.
Qed.

(** ** The per-source normaliser, one code at a time *)

Lemma normalize_lookup (d : list (pystr * tally)) (M : normalized_map)
    (out : list pystr) (c : pystr) :
  (fold_left normalize_step d (M, out)).1 !! c = fold_left (winner_step c) d (M !! c).
Proof.
  revert M out. induction d as [|[n m] d IH]; intros M out; simpl; [done|].
  destruct (resolve n) as [cn pr] eqn:R.
  replace (winner_step c (M !! c) (n, m))
    with ((if decide (cn = c) then
             match M !! cn with
             | Some (n0, _) => if decide (length n0 <= length n) then M
                               else <[cn := (n, m)]> M
             | None => <[cn := (n, m)]> M
             end else M) !! c).
  - destruct (M !! cn) as [[n0 m0]|] eqn:E; [case_decide|];
      rewrite IH; f_equal; (case_decide; [subst|]; [done|]);
      by rewrite ?lookup_insert_ne.
  - unfold winner_step. simpl. rewrite R. simpl.
    case_decide; [subst|done].
    destruct (M !! c) as [[n0 m0]|] eqn:E; [case_decide|];
      by rewrite ?lookup_insert_eq.
Qed.

Lemma lookup_snoc_inv {A} (d : list A) (x y : A) (j : nat) :
  (d ++ [x]) !! j = Some y -> (j < length d /\ d !! j = Some y) \/ (j = length d /\ y = x).
Proof.
  intros H. destruct (decide (j < length d)).
  - left. split; [done|]. by rewrite lookup_app_l in H.
  - right. rewrite lookup_app_r in H by lia.
    destruct (j - length d) eqn:E; simpl in H; [|by rewrite lookup_nil in H].
    injection H as <-. split; [lia|done].
Qed.

Lemma lookup_snoc_last {A} (d : list A) (x : A) : (d ++ [x]) !! length d = Some x.
Proof. rewrite lookup_app_r by lia. by rewrite Nat.sub_diag. Qed.

Lemma winner_sound (d : list (pystr * tally)) (c : pystr) :
  (forall n m, fold_left (winner_step c) d None = Some (n, m) ->
     exists i, first_shortest d c i n m) /\
  (fold_left (winner_step c) d None = None ->
     forall j n' m', d !! j = Some (n', m') -> (resolve n').1 <> c).
Proof.
  induction d as [|[nx mx] d IH] using rev_ind; simpl.
  { split; [done|]. intros _ j n' m' H. by rewrite lookup_nil in H. }
  rewrite fold_left_app. simpl. destruct IH as [IHs IHn].
  destruct (fold_left (winner_step c) d None) as [[n0 m0]|] eqn:F;
    unfold winner_step; simpl; destruct (decide ((resolve nx).1 = c)) as [Hx|Hx].
  - destruct (IHs n0 m0 eq_refl) as [i0 [Hi0 [Hc0 Hall0]]].
    pose proof (lookup_lt_Some _ _ _ Hi0) as Hlt0.
    case_decide as Hle.
    + split; [|done]. intros n m [= <- <-]. exists i0.
      split; [by apply lookup_app_l_Some|]. split; [done|].
      intros j n' m' Hj Hcj.
      destruct (lookup_snoc_inv _ _ _ _ Hj) as [[Hjl Hj'] | [-> [= -> ->]]].
      * by apply (Hall0 j n' m').
      * split; [lia|done].
    + split; [|done]. intros n m [= <- <-]. exists (length d).
      split; [apply lookup_snoc_last|]. split; [done|].
      intros j n' m' Hj Hcj.
      destruct (lookup_snoc_inv _ _ _ _ Hj) as [[Hjl Hj'] | [-> [= -> ->]]].
      * split; [|lia]. intros _.
        destruct (lt_eq_lt_dec j i0) as [[Hji|Hji]|Hji].
        -- destruct (Hall0 j n' m' Hj' Hcj) as [H _]. specialize (H Hji). lia.
        -- subst j. rewrite Hi0 in Hj'. injection Hj' as -> ->. lia.
        -- destruct (Hall0 j n' m' Hj' Hcj) as [_ H]. specialize (H Hji). lia.
      * split; lia.
  - split; [|done]. intros n m Hnm. destruct (IHs n m Hnm) as [i0 [Hi0 [Hc0 Hall0]]].
    exists i0. split; [by apply lookup_app_l_Some|]. split; [done|].
    intros j n' m' Hj Hcj.
    destruct (lookup_snoc_inv _ _ _ _ Hj) as [[Hjl Hj'] | [-> [= -> ->]]].
    + by apply (Hall0 j n' m').
    + done.
  - split; [|done]. intros n m [= <- <-]. exists (length d).
    split; [apply lookup_snoc_last|]. split; [done|].
    intros j n' m' Hj Hcj.
    destruct (lookup_snoc_inv _ _ _ _ Hj) as [[Hjl Hj'] | [-> [= -> ->]]].
    + by destruct (IHn eq_refl j n' m' Hj').
    + split; lia.
  - split; [done|]. intros _ j n' m' Hj.
    destruct (lookup_snoc_inv _ _ _ _ Hj) as [[Hjl Hj'] | [-> [= -> ->]]].
    + by apply (IHn eq_refl j n' m').
    + done.
Qed.

Lemma first_shortest_unique (d : list (pystr * tally)) (c : pystr)
    (i i' : nat) (n n' : pystr) (m m' : tally) :
  first_shortest d c i n m -> first_shortest d c i' n' m' -> i = i'.
Proof.
  intros [Hi [Hc Hall]] [Hi' [Hc' Hall']].
  destruct (lt_eq_lt_dec i i') as [[Hlt|Heq]|Hlt]; [|done|].
  - destruct (Hall' i n m Hi Hc) as [H _]. destruct (Hall i' n' m' Hi' Hc') as [_ H'].
    specialize (H Hlt). specialize (H' Hlt). lia.
  - destruct (Hall i' n' m' Hi' Hc') as [H _]. destruct (Hall' i n m Hi Hc) as [_ H'].
    specialize (H Hlt). specialize (H' Hlt). lia.
Qed.

Lemma normalize_lookup_spec (d : list (pystr * tally)) (c n : pystr) (m : tally) :
  (normalize_country_names d).1 !! c = Some (n, m) <->
  exists i, first_shortest d c i n m.
Proof.
  unfold normalize_country_names. rewrite normalize_lookup, lookup_empty.
  destruct (winner_sound d c) as [Hs Hn]. split.
  - apply Hs.
  - intros [i Hfs].
    destruct (fold_left (winner_step c) d None) as [[n0 m0]|] eqn:F.
    + destruct (Hs n0 m0 eq_refl) as [i0 Hfs0].
      pose proof (first_shortest_unique _ _ _ _ _ _ _ _ Hfs Hfs0) as <-.
      destruct Hfs as [Hi _]. destruct Hfs0 as [Hi0 _].
      rewrite Hi in Hi0. by injection Hi0 as -> ->.
    + destruct Hfs as [Hi [Hc _]]. by destruct (Hn eq_refl i n m Hi).
Qed.

(** The example of the spec: "China" (tally A) and "Macao, China"
    (tally B) both resolve to "CHN"; the entry keeps "China" and A. *)
Example normalize_china_macao :
  (normalize_country_names
     [(py "China", row_tally 3 2 1); (py "Macao, China", row_tally 0 1 4)]).1
    !! py "CHN" = Some (py "China", row_tally 3 2 1) /\
  (normalize_country_names
     [(py "Macao, China", row_tally 0 1 4); (py "China", row_tally 3 2 1)]).1
    !! py "CHN" = Some (py "China", row_tally 3 2 1).
Proof. split; vm_compute; reflexivity. Qed.

(** ** Claims on resolution and normalisation *)

(** C2: the entry the normaliser keeps for a code [c] is the name and the
    tally of one input row [i], the first of the shortest labels resolving
    to [c]: every earlier label resolving to [c] is strictly longer, every
    later one is at least as long.  A replaced or rejected label's tally is
    not added to the kept one. *)
Theorem normalize_keeps_shortest_first_seen
    (data_dict : list (pystr * tally)) (c n : pystr) (m : tally) :
  (normalize_country_names data_dict).1 !! c = Some (n, m) <->
  exists i, data_dict !! i = Some (n, m) /\ (resolve n).1 = c /\
    forall j n' m', data_dict !! j = Some (n', m') -> (resolve n').1 = c ->
      (j < i -> length n < length n') /\ (i < j -> length n <= length n').
Proof. apply normalize_lookup_spec. Qed.

(** C7: resolution is a total function (the source raises nothing on the
    way: dict lookup, [lower], [in], slicing and [upper] of a [str]) and
    the code it returns is never the empty string. *)
Theorem resolve_code_nonempty (country_name : pystr) :
  (resolve country_name).1 <> [].
Proof.
  destruct country_name as [|x s]; [vm_compute; discriminate|].
  unfold resolve. cbv zeta.
  generalize (dict_get (x :: s) COUNTRY_CODE_MAP) (partial_match (x :: s) COUNTRY_CODE_MAP).
  intros o p.
  assert (Hup : py_upper (py_slice_to 3 (x :: s)) <> []).
  { unfold py_slice_to, py_upper. cbn [take]. rewrite bind_cons.
    pose proof (upper_cp_nonempty x) as Hx.
    destruct (upper_cp x); [done|discriminate]. }
  destruct o as [[|a o]|], p as [[|b p]|]; simpl; done.
Qed.

(** C8 fails on labels shorter than three characters: "Qq" matches no
    dictionary name, exactly or as a substring either way, and its
    pseudo-code "QQ" has two characters. *)
Lemma resolve_fallback_two_chars :
  dict_get (py "Qq") COUNTRY_CODE_MAP = None /\
  partial_match (py "Qq") COUNTRY_CODE_MAP = None /\
  resolve (py "Qq") = (py "QQ", [warning_line (py "Qq")]) /\
  length (resolve (py "Qq")).1 = 2.
Proof. vm_compute. repeat split. Qed.

(** C8, as the code has it: a label matched neither exactly nor by the
    substring scan gets [country_name[:3].upper()], the upper-casing of at
    most its first three characters, and one warning line is printed. *)
Theorem resolve_fallback_pseudo_code (country_name : pystr) :
  dict_get country_name COUNTRY_CODE_MAP = None ->
  partial_match country_name COUNTRY_CODE_MAP = None ->
  resolve country_name =
    (py_upper (take 3 country_name), [warning_line country_name]) /\
  length (take 3 country_name) = Nat.min 3 (length country_name).
Proof.
  intros H1 H2. split.
  - unfold resolve, py_slice_to. rewrite H1, H2. reflexivity.
  - apply length_take.
Qed.

Lemma resolve_fallback_pseudo_code_witness :
  (dict_get (py "Zzyzx") COUNTRY_CODE_MAP = None /\
   partial_match (py "Zzyzx") COUNTRY_CODE_MAP = None) /\
  resolve (py "Zzyzx") = (py "ZZY", [warning_line (py "Zzyzx")]) /\
  length (take 3 (py "Zzyzx")) = Nat.min 3 (length (py "Zzyzx")).
Proof.
  split; [vm_compute; split; reflexivity|].
  apply (resolve_fallback_pseudo_code (py "Zzyzx")); vm_compute; reflexivity.
Defined.

(** C10: the empty label has no exact entry, is contained in the first
    dictionary name ("United States") and so resolves to "USA" without a
    warning; in a source dict holding the empty label, the "USA" entry is
    the empty label with its own tally, since no other label is shorter. *)
Theorem empty_label_resolves_to_usa :
  head COUNTRY_CODE_MAP = Some (py "United States", py "USA") /\
  dict_get [] COUNTRY_CODE_MAP = None /\
  partial_match [] COUNTRY_CODE_MAP = Some (py "USA") /\
  resolve [] = (py "USA", []) /\
  forall (data_dict : list (pystr * tally)) (m : tally),
    NoDup data_dict.*1 -> ([], m) ∈ data_dict ->
    (normalize_country_names data_dict).1 !! py "USA" = Some ([], m).
Proof.
  split; [reflexivity|]. split; [vm_compute; reflexivity|].
  split; [vm_compute; reflexivity|]. split; [vm_compute; reflexivity|].
  intros data_dict m Hnd Hin.
  apply normalize_lookup_spec.
  apply list_elem_of_lookup in Hin as [i Hi].
  exists i. split; [done|]. split; [vm_compute; reflexivity|].
  intros j n' m' Hj _. simpl.
  split; [|lia]. intros Hji.
  destruct n' as [|x n']; simpl; [|lia].
  assert (j = i) as ->; [|lia].
  eapply NoDup_lookup; [exact Hnd| |].
  - by rewrite list_lookup_fmap, Hj.
  - by rewrite list_lookup_fmap, Hi.
Qed.

Lemma empty_label_resolves_to_usa_witness :
  NoDup ([(py "China", row_tally 1 0 0); ([], row_tally 0 2 0);
          (py "United States", row_tally 5 0 0)].*1) /\
  (normalize_country_names
     [(py "China", row_tally 1 0 0); ([], row_tally 0 2 0);
      (py "United States", row_tally 5 0 0)]).1 !! py "USA"
    = Some ([], row_tally 0 2 0).
Proof.
  assert (Hnd : NoDup ([(py "China", row_tally 1 0 0); ([], row_tally 0 2 0);
                        (py "United States", row_tally 5 0 0)].*1))
    by (vm_compute; repeat constructor; set_solver).
  split; [exact Hnd|].
  apply (proj2 (proj2 (proj2 (proj2 empty_label_resolves_to_usa)))); [exact Hnd|].
  vm_compute. right. left.
Defined.

(** ** The historical-entity filter *)

Lemma find_historical_some (text : pystr) (hs : list pystr) :
  Exists (fun h => py_in (py_lower h) (py_lower text) = true) hs ->
  exists h, find_historical text hs = Some h /\ h ∈ hs.
Proof.
  induction hs as [|h hs IH]; simpl; intros Hex; [inversion Hex|].
  destruct (py_in (py_lower h) (py_lower text)) eqn:E.
  - exists h. split; [done|]. by left.
  - inversion Hex as [? ? Hh|? ? Hr]; subst; [congruence|].
    destruct (IH Hr) as [h' [Hf Hin]]. exists h'. split; [done|]. by right.
Qed.

Lemma imo_row_step_historical (data : list (pystr * tally)) (row : imo_row) :
  Exists (fun h => py_in (py_lower h) (py_lower (imo_cell_text row)) = true)
    HISTORICAL_COUNTRIES ->
  imo_row_step data row = data.
Proof.
  intros Hex. destruct (find_historical_some _ _ Hex) as [h [Hf Hin]].
  unfold imo_row_step. repeat case_decide; try done.
  rewrite Hf. simpl. by rewrite bool_decide_eq_true_2.
Qed.

Lemma plain_row_step_historical (i j k : nat) (data : list (pystr * tally))
    (row : plain_row) :
  row_name row ∈ HISTORICAL_COUNTRIES -> plain_row_step i j k data row = data.
Proof.
  intros Hin. unfold plain_row_step. repeat case_decide; done.
Qed.

Lemma fold_left_skip {A B} (f : A -> B -> A) (pre post : list B) (x : B) (a : A) :
  (forall acc, f acc x = acc) ->
  fold_left f (pre ++ x :: post) a = fold_left f (pre ++ post) a.
Proof. intros Hx. by rewrite !fold_left_app; simpl; rewrite Hx. Qed.

Lemma find_historical_none (text : pystr) (hs : list pystr) :
  ~ Exists (fun h => py_in (py_lower h) (py_lower text) = true) hs ->
  find_historical text hs = None.
Proof.
  induction hs as [|h hs IH]; intros Hn; [done|]. cbn [find_historical].
  destruct (py_in (py_lower h) (py_lower text)) eqn:E.
  - exfalso. apply Hn. by apply Exists_cons_hd.
  - apply IH. intros Hex. apply Hn. by apply Exists_cons_tl.
Qed.

Lemma imo_snoc_accepted (rows : list imo_row) (row : imo_row) (t : tally) :
  6 <= length (imo_cells row) -> 2 < length (imo_name row) ->
  find_historical (imo_cell_text row) HISTORICAL_COUNTRIES = None ->
  medal_cells (imo_cells row) 2 3 4 = Some t ->
  parse_imo_data (Some (rows ++ [row])) =
    dict_set (imo_name row) t (parse_imo_data (Some rows)).
Proof.
  intros Hc Hn Hh Hm. cbn [parse_imo_data]. rewrite fold_left_app. cbn [fold_left].
  unfold imo_row_step at 1. rewrite decide_False by lia. rewrite decide_False by lia.
  rewrite Hh. cbn [andb]. by rewrite Hm.
Qed.

Lemma plain_snoc_accepted (i j k : nat) (rows : list plain_row) (row : plain_row)
    (t : tally) :
  6 <= length (row_cells row) -> row_name row ∉ HISTORICAL_COUNTRIES ->
  medal_cells (row_cells row) i j k = Some t ->
  fold_left (plain_row_step i j k) (rows ++ [row]) [] =
    dict_set (row_name row) t (fold_left (plain_row_step i j k) rows []).
Proof.
  intros Hc Hh Hm. rewrite fold_left_app. cbn [fold_left].
  unfold plain_row_step at 1. rewrite decide_False by lia.
  rewrite bool_decide_false by done. by rewrite Hm.
Qed.

(** C4 fails for the IOI source: its parser drops a row only when the
    label is exactly a Historical Set name, so "Soviet Union (USSR)",
    which contains "Soviet Union", is kept and its medals go to the
    pseudo-code "SOV". *)
Lemma historical_substring_kept_in_ioi :
  let row := mk_plain_row [None; None; None; Some 1%Z; Some 0%Z; Some 0%Z]
                          (py "Soviet Union (USSR)") in
  py_in (py_lower (py "Soviet Union")) (py_lower (row_name row)) = true /\
  parse_ioi_data (Some [row]) = [(py "Soviet Union (USSR)", row_tally 1 0 0)] /\
  aggregate_data [] (parse_ioi_data (Some [row])) [] =
    [mk_country (py "SOV") (Some (py "Soviet Union (USSR)"))
       zero_tally (row_tally 1 0 0) zero_tally (mk_tally 1 0 0 1)].
Proof. vm_compute. repeat split. Qed.

(** C4, as the code has it: the IMO parser drops every row whose country
    cell text contains a Historical Set name, ignoring case, and otherwise
    keeps a well-formed row; the IOI and IPhO parsers drop every row whose
    label is a Historical Set name and keep every well-formed row whose
    label is not one, even when it contains one.  A dropped row leaves the
    parsed dict as if it were absent, so its medals reach no code; a kept
    row sets its label's tally.  In particular the label "Soviet Union" is
    dropped by all three. *)
Theorem historical_rows_dropped :
  (forall (pre post : list imo_row) (row : imo_row),
     Exists (fun h => py_in (py_lower h) (py_lower (imo_cell_text row)) = true)
       HISTORICAL_COUNTRIES ->
     parse_imo_data (Some (pre ++ row :: post)) = parse_imo_data (Some (pre ++ post))) /\
  (forall (pre post : list plain_row) (row : plain_row),
     row_name row ∈ HISTORICAL_COUNTRIES ->
     parse_ioi_data (Some (pre ++ row :: post)) = parse_ioi_data (Some (pre ++ post))) /\
  (forall (pre post : list plain_row) (row : plain_row),
     row_name row ∈ HISTORICAL_COUNTRIES ->
     parse_ipho_data (Some (pre ++ row :: post)) = parse_ipho_data (Some (pre ++ post))) /\
  (forall (rows : list imo_row) (row : imo_row) (t : tally),
     6 <= length (imo_cells row) -> 2 < length (imo_name row) ->
     ~ Exists (fun h => py_in (py_lower h) (py_lower (imo_cell_text row)) = true)
         HISTORICAL_COUNTRIES ->
     medal_cells (imo_cells row) 2 3 4 = Some t ->
     parse_imo_data (Some (rows ++ [row])) =
       dict_set (imo_name row) t (parse_imo_data (Some rows))) /\
  (forall (rows : list plain_row) (row : plain_row) (t : tally),
     6 <= length (row_cells row) -> row_name row ∉ HISTORICAL_COUNTRIES ->
     medal_cells (row_cells row) 3 4 5 = Some t ->
     parse_ioi_data (Some (rows ++ [row])) =
       dict_set (row_name row) t (parse_ioi_data (Some rows))) /\
  (forall (rows : list plain_row) (row : plain_row) (t : tally),
     6 <= length (row_cells row) -> row_name row ∉ HISTORICAL_COUNTRIES ->
     medal_cells (row_cells row) 4 5 6 = Some t ->
     parse_ipho_data (Some (rows ++ [row])) =
       dict_set (row_name row) t (parse_ipho_data (Some rows))) /\
  py "Soviet Union" ∈ HISTORICAL_COUNTRIES.
Proof.
  split; [|split; [|split; [|split; [|split; [|split]]]]].
  - intros pre post row Hex. simpl. apply fold_left_skip.
    intros acc. by apply imo_row_step_historical.
  - intros pre post row Hin. simpl. apply fold_left_skip.
    intros acc. by apply plain_row_step_historical.
  - intros pre post row Hin. simpl. apply fold_left_skip.
    intros acc. by apply plain_row_step_historical.
  - intros rows row t Hc Hn Hh Hm.
    apply imo_snoc_accepted; [done|done| |done]. by apply find_historical_none.
  - intros rows row t Hc Hh Hm. by apply plain_snoc_accepted.
  - intros rows row t Hc Hh Hm. by apply plain_snoc_accepted.
  - by left.
Qed.

Lemma historical_rows_dropped_witness :
  let france := mk_plain_row [None; None; None; Some 2%Z; Some 1%Z; Some 0%Z; Some 4%Z]
                             (py "France") in
  let ussr := mk_plain_row [None; None; None; Some 9%Z; Some 9%Z; Some 9%Z; Some 9%Z]
                           (py "Soviet Union") in
  let ussr' := mk_plain_row [None; None; None; Some 1%Z; Some 0%Z; Some 0%Z]
                            (py "Soviet Union (USSR)") in
  let peru := mk_imo_row [None; None; Some 1%Z; Some 2%Z; Some 3%Z; None]
                         (py "Peru") (py "Peru") in
  parse_ioi_data (Some ([france] ++ ussr :: [])) = parse_ioi_data (Some ([france] ++ [])) /\
  parse_ipho_data (Some ([] ++ ussr :: [france])) = parse_ipho_data (Some ([] ++ [france])) /\
  parse_imo_data (Some ([] ++ mk_imo_row [None; None; Some 3%Z; Some 3%Z; Some 3%Z; None]
                                 (py "Russia") (py "Soviet Union[a]") :: []))
    = parse_imo_data (Some ([] ++ [])) /\
  parse_ioi_data (Some ([france] ++ [ussr'])) =
    dict_set (py "Soviet Union (USSR)") (row_tally 1 0 0) (parse_ioi_data (Some [france])) /\
  parse_imo_data (Some ([] ++ [peru])) =
    dict_set (py "Peru") (row_tally 1 2 3) (parse_imo_data (Some [])).
Proof.
  intros france ussr ussr' peru.
  destruct historical_rows_dropped as [Himo [Hioi [Hipho [Kimo [Kioi [Kipho _]]]]]].
  split; [|split; [|split; [|split]]].
  - apply Hioi. simpl. by left.
  - apply Hipho. simpl. by left.
  - apply Himo. unfold HISTORICAL_COUNTRIES. cbn [map]. apply Exists_cons_hd.
    vm_compute. reflexivity.
  - apply Kioi; [simpl; lia| |reflexivity].
    apply (bool_decide_eq_false_1 (py "Soviet Union (USSR)" ∈ HISTORICAL_COUNTRIES)).
    vm_compute. reflexivity.
  - apply Kimo; [simpl; lia|vm_compute; lia| |reflexivity].
    intros Hex. apply Exists_exists in Hex as [h [Hin Hh]].
    unfold HISTORICAL_COUNTRIES in Hin. cbn [map] in Hin.
    repeat (apply elem_of_cons in Hin as [->|Hin]; [cbv [peru imo_cell_text] in Hh; vm_compute in Hh; discriminate|]).
    by apply elem_of_nil in Hin.
Defined.

(** ** The alpha-2 post-process *)

Lemma dict_get_set {K V} `{EqDecision K} (k k' : K) (v : V) (d : list (K * V)) :
  dict_get k (dict_set k' v d) = if decide (k' = k) then Some v else dict_get k d.
Proof.
  induction d as [|[k0 v0] d IH]; simpl; [by case_decide|].
  destruct (decide (k0 = k')); simpl; rewrite ?IH; repeat case_decide; subst; done.
Qed.

Lemma dict_set_set {K V} `{EqDecision K} (k : K) (v v' : V) (d : list (K * V)) :
  dict_set k v (dict_set k v' d) = dict_set k v d.
Proof.
  induction d as [|[k0 v0] d IH]; simpl.
  - by rewrite decide_True.
  - destruct (decide (k0 = k)); simpl.
    + by rewrite decide_True.
    + rewrite decide_False by done. by rewrite IH.
Qed.

Lemma update_country_idem (c c' : json) :
  update_country c = Some c' -> update_country c' = Some c'.
Proof.
  destruct c as [| | | | |fs]; unfold update_country; try discriminate.
  destruct (alpha2_of (dict_get (py "code") fs)) as [[a2|]|] eqn:E;
    intros H; try discriminate; injection H as <-.
  - rewrite dict_get_set, decide_False by (vm_compute; discriminate).
    rewrite E. by rewrite dict_set_set.
  - by rewrite E.
Qed.

Lemma mapM_update_fixed (l l' : list json) :
  Forall2 (fun x y => update_country x = Some y) l l' ->
  mapM update_country l' = Some l'.
Proof.
  induction 1 as [|x y l l' Hxy _ IH]; simpl; [done|].
  rewrite (update_country_idem _ _ Hxy). simpl. by rewrite IH.
Qed.

Lemma update_country_fields (c c' : json) :
  update_country c = Some c' ->
  exists fs fs', c = JObj fs /\ c' = JObj fs' /\
    dict_get (py "medals") fs' = dict_get (py "medals") fs /\
    (forall k, k <> py "alpha2" -> dict_get k fs' = dict_get k fs) /\
    dict_get (py "alpha2") fs' = alpha2_after fs.
Proof.
  destruct c as [| | | | |fs]; unfold update_country; try discriminate.
  intros H. exists fs. revert H.
  unfold alpha2_after, alpha2_of.
  destruct (dict_get (py "code") fs) as [j|] eqn:E;
    [destruct j as [| | |s| |]|]; intros H; try discriminate;
    try (injection H as <-; exists fs; repeat split; done).
  destruct (dict_get s ALPHA3_TO_ALPHA2) as [a2|];
    injection H as <-; [|exists fs; repeat split; done].
  exists (dict_set (py "alpha2") (JStr a2) fs).
  split; [done|]. split; [done|]. split; [|split].
  - rewrite dict_get_set. rewrite decide_False; [done|vm_compute; discriminate].
  - intros k Hk. rewrite dict_get_set. by rewrite decide_False.
  - rewrite dict_get_set. by rewrite decide_True.
Qed.

(** C9: running the alpha-2 post-process on the document it wrote gives
    that document back; it changes no key of the document but
    "countries", and in each country it changes no key but "alpha2" (so
    "medals" is kept); "alpha2" is set to the table's value exactly when
    the country's code is a key of [ALPHA3_TO_ALPHA2]. *)
Theorem add_alpha2_idempotent_keeps_medals (data data' : json) :
  add_alpha2_codes data = Some data' ->
  add_alpha2_codes data' = Some data' /\
  (forall k, k <> py "countries" -> json_get k data' = json_get k data) /\
  (forall l, json_get (py "countries") data = Some (JArr l) ->
     exists l', json_get (py "countries") data' = Some (JArr l') /\
       Forall2 (fun c c' => exists fs fs', c = JObj fs /\ c' = JObj fs' /\
           dict_get (py "medals") fs' = dict_get (py "medals") fs /\
           (forall k, k <> py "alpha2" -> dict_get k fs' = dict_get k fs) /\
           dict_get (py "alpha2") fs' = alpha2_after fs) l l').
Proof.
  destruct data as [| | | | |fs]; unfold add_alpha2_codes; try discriminate.
  destruct (dict_get (py "countries") fs) as [j|] eqn:E; [|discriminate].
  destruct j as [| | |[|x s]|l|[|x fs0]]; try discriminate.
  - intros H. injection H as <-. rewrite E. split; [done|]. split; [done|].
    intros l Hl. unfold json_get in Hl. congruence.
  - destruct (mapM update_country l) as [l'|] eqn:M; [|discriminate].
    intros H. injection H as <-.
    apply mapM_Some_1 in M.
    split; [|split].
    + rewrite dict_get_set, decide_True by done.
      rewrite (mapM_update_fixed _ _ M). unfold mbind, option_bind.
      by rewrite dict_set_set.
    + intros k Hk. unfold json_get. rewrite dict_get_set. by rewrite decide_False.
    + intros l0 Hl0. unfold json_get in Hl0. rewrite E in Hl0. injection Hl0 as <-.
      exists l'. split.
      * unfold json_get. rewrite dict_get_set. by rewrite decide_True.
      * eapply Forall2_impl; [exact M|]. intros c c'. apply update_country_fields.
  - intros H. injection H as <-. rewrite E. split; [done|]. split; [done|].
    intros l Hl. unfold json_get in Hl. congruence.
Qed.

Lemma add_alpha2_idempotent_keeps_medals_witness :
  let fra := JObj [(py "code", JStr (py "FRA"));
                   (py "medals", JObj [(py "IMO", JInt 17)])] in
  let xyz := JObj [(py "code", JStr (py "QQ")); (py "medals", JInt 1)] in
  let doc := JObj [(py "countries", JArr [fra; xyz]); (py "metadata", JNull)] in
  let doc' := JObj [(py "countries",
                     JArr [JObj [(py "code", JStr (py "FRA"));
                                 (py "medals", JObj [(py "IMO", JInt 17)]);
                                 (py "alpha2", JStr (py "FR"))]; xyz]);
                    (py "metadata", JNull)] in
  add_alpha2_codes doc = Some doc' /\ add_alpha2_codes doc' = Some doc'.
Proof.
  intros fra xyz doc doc'.
  assert (H : add_alpha2_codes doc = Some doc') by (vm_compute; reflexivity).
  split; [exact H|].
  exact (proj1 (add_alpha2_idempotent_keeps_medals doc doc' H)).
Defined.

(** ** Witnesses on a small run: France in IMO, Peru in IOI, IPhO empty *)

Lemma aggregate_sorted_by_combined_total_witness :
  let out := aggregate_data [(py "France", row_tally 10 5 2)]
                            [(py "Peru", row_tally 1 0 0)] [] in
  let fra := mk_country (py "FRA") (Some (py "France"))
               (row_tally 10 5 2) zero_tally zero_tally (mk_tally 10 5 2 17) in
  let per := mk_country (py "PER") (Some (py "Peru"))
               zero_tally (row_tally 1 0 0) zero_tally (mk_tally 1 0 0 1) in
  (out !! 0 = Some fra /\ out !! 1 = Some per) /\
  (total (combined per) <= total (combined fra))%Z.
Proof.
  intros out fra per.
  assert (H0 : out !! 0 = Some fra) by (vm_compute; reflexivity).
  assert (H1 : out !! 1 = Some per) by (vm_compute; reflexivity).
  split; [split; assumption|].
  exact (aggregate_sorted_by_combined_total _ _ _ 0 fra per H0 H1).
Defined.

Lemma aggregate_absent_sources_zero_witness :
  let d1 := [(py "France", row_tally 10 5 2)] in
  let d2 := [(py "Peru", row_tally 1 0 0)] in
  (py "FRA" ∈ dom (normalize_country_names d1).1 \/
   py "FRA" ∈ dom (normalize_country_names d2).1 \/
   py "FRA" ∈ dom (normalize_country_names []).1) /\
  exists e, filter (fun e' => code e' = py "FRA") (aggregate_data d1 d2 []) = [e] /\
     (py "FRA" ∉ dom (normalize_country_names d1).1 -> imo e = zero_tally) /\
     (py "FRA" ∉ dom (normalize_country_names d2).1 -> ioi e = zero_tally) /\
     (py "FRA" ∉ dom (normalize_country_names []).1 -> ipho e = zero_tally).
Proof.
  intros d1 d2.
  assert (H : py "FRA" ∈ dom (normalize_country_names d1).1 \/
              py "FRA" ∈ dom (normalize_country_names d2).1 \/
              py "FRA" ∈ dom (normalize_country_names []).1).
  { left. apply elem_of_dom. vm_compute. eexists; reflexivity. }
  split; [exact H|].
  exact (proj2 (proj2 (proj2 (aggregate_absent_sources_zero d1 d2 [] (py "FRA")))) H).
Defined.

(** * Further properties of the code *)

(** ** Source parsers *)

Lemma dict_set_keys {K V} `{EqDecision K} (k : K) (v : V) (d : list (K * V)) :
  (dict_set k v d).*1 = if bool_decide (k ∈ d.*1) then d.*1 else d.*1 ++ [k].
Proof.
  induction d as [|[k0 v0] d IH]; cbn [dict_set].
  - rewrite bool_decide_false by set_solver. done.
  - destruct (decide (k0 = k)) as [->|Hne]; rewrite !fmap_cons; cbn [fst].
    + rewrite bool_decide_true by (by left). done.
    + rewrite IH. destruct (bool_decide (k ∈ d.*1)) eqn:E.
      * apply bool_decide_eq_true in E. rewrite bool_decide_true by (by right). done.
      * apply bool_decide_eq_false in E. rewrite bool_decide_false; [done|].
        intros [->|]%elem_of_cons; done.
Qed.

Lemma fold_left_preserve {A B} (P : A -> Prop) (f : A -> B -> A) (l : list B) (a : A) :
  (forall a b, P a -> P (f a b)) -> P a -> P (fold_left f l a).
Proof. intros Hf. revert a. induction l; simpl; auto. Qed.

Lemma find_historical_in (text : pystr) (hs : list pystr) (h : pystr) :
  find_historical text hs = Some h -> h ∈ hs.
Proof.
  induction hs as [|h0 hs IH]; simpl; [done|].
  destruct (py_in _ _); [intros [= ->]; by left|]. intros H. right. auto.
Qed.

(** What [imo_row_step] does: keep [data], or set the extracted name. *)
Lemma imo_row_step_cases (data : list (pystr * tally)) (row : imo_row) :
  imo_row_step data row = data \/
  exists t, 6 <= length (imo_cells row) /\ 2 < length (imo_name row) /\
    find_historical (imo_cell_text row) HISTORICAL_COUNTRIES = None /\
    medal_cells (imo_cells row) 2 3 4 = Some t /\
    imo_row_step data row = dict_set (imo_name row) t data.
Proof.
  unfold imo_row_step. repeat case_decide; try (left; done).
  destruct (find_historical _ _) as [h|] eqn:F; simpl.
  - left. rewrite bool_decide_true; [done|]. by eapply find_historical_in.
  - destruct (medal_cells _ _ _ _) as [t|] eqn:M; [right|left; done].
    exists t. repeat split; auto; lia.
Qed.

Lemma plain_row_step_cases (i j k : nat) (data : list (pystr * tally)) (row : plain_row) :
  plain_row_step i j k data row = data \/
  exists t, 6 <= length (row_cells row) /\ (row_name row ∉ HISTORICAL_COUNTRIES) /\
    medal_cells (row_cells row) i j k = Some t /\
    plain_row_step i j k data row = dict_set (row_name row) t data.
Proof.
  unfold plain_row_step. repeat case_decide; try (left; done).
  destruct (medal_cells _ _ _ _) as [t|] eqn:M; [right|left; done].
  exists t. repeat split; auto; lia.
Qed.

(** Labels the parsers keep: the IMO labels have at least three
    characters, and no IOI or IPhO label is a Historical Set name. *)
Theorem parsed_labels_filtered (imo_table : option (list imo_row))
    (ioi_table ipho_table : option (list plain_row)) :
  Forall (fun kv => 2 < length kv.1) (parse_imo_data imo_table) /\
  Forall (fun kv => kv.1 ∉ HISTORICAL_COUNTRIES) (parse_ioi_data ioi_table) /\
  Forall (fun kv => kv.1 ∉ HISTORICAL_COUNTRIES) (parse_ipho_data ipho_table).
Proof.
  split; [|split].
  - destruct imo_table as [rows|]; simpl; [|constructor].
    apply fold_left_preserve; [|constructor]. intros d r Hd.
    destruct (imo_row_step_cases d r) as [->|[t [_ [Hn [_ [_ ->]]]]]];
      [done|by apply dict_set_Forall].
  - destruct ioi_table as [rows|]; simpl; [|constructor].
    apply fold_left_preserve; [|constructor]. intros d r Hd.
    destruct (plain_row_step_cases 3 4 5 d r) as [->|[t [_ [Hn [_ ->]]]]];
      [done|by apply dict_set_Forall].
  - destruct ipho_table as [rows|]; simpl; [|constructor].
    apply fold_left_preserve; [|constructor]. intros d r Hd.
    destruct (plain_row_step_cases 4 5 6 d r) as [->|[t [_ [Hn [_ ->]]]]];
      [done|by apply dict_set_Forall].
Qed.

(** A row the IOI or IPhO parser accepts sets its label's tally, replacing
    the tally of an earlier row with the same label (last row wins); the
    label keeps the position of its first row, and no other label changes. *)
Theorem plain_parsers_last_row_wins :
  (forall (rows : list plain_row) (row : plain_row) (t : tally),
     6 <= length (row_cells row) -> row_name row ∉ HISTORICAL_COUNTRIES ->
     medal_cells (row_cells row) 3 4 5 = Some t ->
     dict_get (row_name row) (parse_ioi_data (Some (rows ++ [row]))) = Some t /\
     (forall k, k <> row_name row ->
        dict_get k (parse_ioi_data (Some (rows ++ [row]))) =
        dict_get k (parse_ioi_data (Some rows))) /\
     (parse_ioi_data (Some (rows ++ [row]))).*1 =
       (if bool_decide (row_name row ∈ (parse_ioi_data (Some rows)).*1)
        then (parse_ioi_data (Some rows)).*1
        else (parse_ioi_data (Some rows)).*1 ++ [row_name row])) /\
  (forall (rows : list plain_row) (row : plain_row) (t : tally),
     6 <= length (row_cells row) -> row_name row ∉ HISTORICAL_COUNTRIES ->
     medal_cells (row_cells row) 4 5 6 = Some t ->
     dict_get (row_name row) (parse_ipho_data (Some (rows ++ [row]))) = Some t /\
     (forall k, k <> row_name row ->
        dict_get k (parse_ipho_data (Some (rows ++ [row]))) =
        dict_get k (parse_ipho_data (Some rows))) /\
     (parse_ipho_data (Some (rows ++ [row]))).*1 =
       (if bool_decide (row_name row ∈ (parse_ipho_data (Some rows)).*1)
        then (parse_ipho_data (Some rows)).*1
        else (parse_ipho_data (Some rows)).*1 ++ [row_name row])).
Proof.
  assert (Hgen : forall i j k (rows : list plain_row) (row : plain_row) (t : tally),
     6 <= length (row_cells row) -> row_name row ∉ HISTORICAL_COUNTRIES ->
     medal_cells (row_cells row) i j k = Some t ->
     fold_left (plain_row_step i j k) (rows ++ [row]) [] =
       dict_set (row_name row) t (fold_left (plain_row_step i j k) rows [])).
  { intros i j k rows row t Hc Hh Hm. rewrite fold_left_app. simpl.
    unfold plain_row_step at 1. rewrite decide_False by lia.
    rewrite bool_decide_false by done. by rewrite Hm. }
  split; intros rows row t Hc Hh Hm; simpl; rewrite (Hgen _ _ _ rows row t Hc Hh Hm);
    (split; [rewrite dict_get_set; by rewrite decide_True|]);
    (split; [intros k Hk; rewrite dict_get_set; by rewrite decide_False|]);
    apply dict_set_keys.
Qed.

Lemma plain_parsers_last_row_wins_witness :
  let r1 := mk_plain_row [None; None; None; Some 1%Z; Some 1%Z; Some 1%Z; None] (py "Peru") in
  let r2 := mk_plain_row [None; None; None; Some 2%Z; Some 0%Z; Some 0%Z; None] (py "Chile") in
  let r3 := mk_plain_row [None; None; None; Some 5%Z; Some 0%Z; Some 0%Z; None] (py "Peru") in
  dict_get (py "Peru") (parse_ioi_data (Some ([r1; r2] ++ [r3]))) = Some (row_tally 5 0 0) /\
  (parse_ioi_data (Some ([r1; r2] ++ [r3]))).*1 = [py "Peru"; py "Chile"].
Proof.
  intros r1 r2 r3.
  destruct ((proj1 plain_parsers_last_row_wins) [r1; r2] r3 (row_tally 5 0 0))
    as [H1 [_ H3]].
  - simpl; lia.
  - apply (bool_decide_eq_false_1 (py "Peru" ∈ HISTORICAL_COUNTRIES)).
    vm_compute. reflexivity.
  - reflexivity.
  - split; [exact H1|]. rewrite H3. vm_compute. reflexivity.
Defined.

(** Rows every parser drops, whatever the other rows: an IMO row with
    fewer than six cells or a name of at most two characters, an IOI row
    with fewer than six cells, an IPhO row with fewer than seven cells
    (the guard asks for six, but cell 6 is read and the [IndexError] is
    caught), and in each source a row whose medal cells do not all hold
    an integer. *)
Theorem parsers_drop_malformed_rows :
  (forall (pre post : list imo_row) (row : imo_row),
     length (imo_cells row) < 6 \/ length (imo_name row) <= 2 \/
     medal_cells (imo_cells row) 2 3 4 = None ->
     parse_imo_data (Some (pre ++ row :: post)) = parse_imo_data (Some (pre ++ post))) /\
  (forall (pre post : list plain_row) (row : plain_row),
     length (row_cells row) < 6 \/ medal_cells (row_cells row) 3 4 5 = None ->
     parse_ioi_data (Some (pre ++ row :: post)) = parse_ioi_data (Some (pre ++ post))) /\
  (forall (pre post : list plain_row) (row : plain_row),
     length (row_cells row) < 7 \/ medal_cells (row_cells row) 4 5 6 = None ->
     parse_ipho_data (Some (pre ++ row :: post)) = parse_ipho_data (Some (pre ++ post))).
Proof.
  split; [|split].
  - intros pre post row Hr. simpl. apply fold_left_skip. intros acc.
    destruct (imo_row_step_cases acc row) as [->|[t [H6 [H2 [_ [Hm _]]]]]]; [done|].
    exfalso. destruct Hr as [?|[?|?]]; [lia|lia|congruence].
  - intros pre post row Hr. simpl. apply fold_left_skip. intros acc.
    destruct (plain_row_step_cases 3 4 5 acc row) as [->|[t [H6 [_ [Hm _]]]]]; [done|].
    exfalso. destruct Hr; [lia|congruence].
  - intros pre post row Hr. simpl. apply fold_left_skip. intros acc.
    destruct (plain_row_step_cases 4 5 6 acc row) as [->|[t [H6 [_ [Hm _]]]]]; [done|].
    exfalso. destruct Hr as [Hl|?]; [|congruence].
    unfold medal_cells in Hm. rewrite (lookup_ge_None_2 (row_cells row) 6) in Hm by lia.
    by repeat case_match.
Qed.

Lemma parsers_drop_malformed_rows_witness :
  let good := mk_plain_row [None; None; None; None; Some 1%Z; Some 2%Z; Some 3%Z] (py "Peru") in
  let six := mk_plain_row [None; None; None; None; Some 4%Z; Some 5%Z] (py "Chile") in
  parse_ipho_data (Some ([good] ++ six :: [])) = parse_ipho_data (Some ([good] ++ [])).
Proof.
  intros good six.
  apply (proj2 (proj2 parsers_drop_malformed_rows)). left. simpl. lia.
Defined.

(** A row the IMO parser accepts (six cells or more, a name longer than two
    characters, no historical name in its text, three integer medal cells)
    sets its name's tally, replacing the tally of an earlier row with the
    same name; the name keeps the position of its first row. *)
Theorem imo_parser_last_row_wins (rows : list imo_row) (row : imo_row) (t : tally) :
  6 <= length (imo_cells row) -> 2 < length (imo_name row) ->
  find_historical (imo_cell_text row) HISTORICAL_COUNTRIES = None ->
  medal_cells (imo_cells row) 2 3 4 = Some t ->
  parse_imo_data (Some (rows ++ [row])) =
    dict_set (imo_name row) t (parse_imo_data (Some rows)) /\
  dict_get (imo_name row) (parse_imo_data (Some (rows ++ [row]))) = Some t /\
  (forall k, k <> imo_name row ->
     dict_get k (parse_imo_data (Some (rows ++ [row]))) =
     dict_get k (parse_imo_data (Some rows))).
Proof.
  intros Hc Hn Hh Hm.
  assert (E : parse_imo_data (Some (rows ++ [row])) =
              dict_set (imo_name row) t (parse_imo_data (Some rows))).
  { cbn [parse_imo_data]. rewrite fold_left_app. cbn [fold_left].
    unfold imo_row_step at 1. rewrite decide_False by lia. rewrite decide_False by lia.
    rewrite Hh. cbn [andb]. by rewrite Hm. }
  split; [exact E|]. rewrite E.
  split; [rewrite dict_get_set; by rewrite decide_True|].
  intros k Hk. rewrite dict_get_set. by rewrite decide_False.
Qed.

Lemma imo_parser_last_row_wins_witness :
  let r1 := mk_imo_row [None; None; Some 1%Z; Some 1%Z; Some 1%Z; None]
                       (py "Peru") (py "Peru") in
  let r2 := mk_imo_row [None; None; Some 4%Z; Some 0%Z; Some 0%Z; None]
                       (py "Peru") (py "Peru") in
  dict_get (py "Peru") (parse_imo_data (Some ([r1] ++ [r2]))) = Some (row_tally 4 0 0).
Proof.
  intros r1 r2.
  destruct (imo_parser_last_row_wins [r1] r2 (row_tally 4 0 0)) as [_ [H _]].
  - simpl; lia.
  - vm_compute; lia.
  - vm_compute. reflexivity.
  - reflexivity.
  - exact H.
Defined.

(** ** Name resolution *)

Lemma partial_match_value (s : pystr) (entries : list (pystr * pystr)) (c : pystr) :
  partial_match s entries = Some c -> c ∈ entries.*2.
Proof.
  induction entries as [|[n v] entries IH]; simpl; [done|].
  destruct (_ || _); [intros [= ->]; by left|]. intros H. right. auto.
Qed.

Lemma country_codes_nonempty : Forall (fun v : pystr => v <> []) COUNTRY_CODE_MAP.*2.
Proof.
  apply (bool_decide_eq_true_1 (Forall (fun v : pystr => v <> []) COUNTRY_CODE_MAP.*2)).
  vm_compute. reflexivity.
Qed.

Lemma partial_match_lower (s s' : pystr) (entries : list (pystr * pystr)) :
  py_lower s = py_lower s' -> partial_match s entries = partial_match s' entries.
Proof.
  intros H. induction entries as [|[n v] entries IH]; simpl; [done|].
  by rewrite H, IH.
Qed.

Lemma resolve_paths (country_name : pystr) :
  (exists c, dict_get country_name COUNTRY_CODE_MAP = Some c /\
     resolve country_name = (c, []) /\ c ∈ COUNTRY_CODE_MAP.*2) \/
  (exists c, dict_get country_name COUNTRY_CODE_MAP = None /\
     partial_match country_name COUNTRY_CODE_MAP = Some c /\
     resolve country_name = (c, []) /\ c ∈ COUNTRY_CODE_MAP.*2) \/
  (dict_get country_name COUNTRY_CODE_MAP = None /\
   partial_match country_name COUNTRY_CODE_MAP = None /\
   resolve country_name =
     (py_upper (py_slice_to 3 country_name), [warning_line country_name])).
Proof.
  pose proof country_codes_nonempty as Hne. rewrite Forall_forall in Hne.
  unfold resolve. cbv zeta.
  destruct (dict_get country_name COUNTRY_CODE_MAP) as [c|] eqn:E1.
  - left. exists c. pose proof (dict_get_value _ _ _ E1) as Hv.
    destruct c as [|x c]; [by destruct (Hne [] Hv)|]. done.
  - right. destruct (partial_match country_name COUNTRY_CODE_MAP) as [c|] eqn:E2.
    + left. exists c. pose proof (partial_match_value _ _ _ E2) as Hv.
      destruct c as [|x c]; [by destruct (Hne [] Hv)|]. done.
    + right. done.
Qed.

(** The three ways a label is resolved: an exact dictionary key gives its
    value; otherwise the first dictionary entry matching as a substring,
    ignoring case, gives its value; otherwise the pseudo-code is built and
    one warning is printed.  Only the last prints anything, and the first
    two return a value of [COUNTRY_CODE_MAP]. *)
Theorem resolve_cases (country_name : pystr) :
  (exists c, dict_get country_name COUNTRY_CODE_MAP = Some c /\
     resolve country_name = (c, []) /\ c ∈ COUNTRY_CODE_MAP.*2) \/
  (exists c, dict_get country_name COUNTRY_CODE_MAP = None /\
     partial_match country_name COUNTRY_CODE_MAP = Some c /\
     resolve country_name = (c, []) /\ c ∈ COUNTRY_CODE_MAP.*2) \/
  (dict_get country_name COUNTRY_CODE_MAP = None /\
   partial_match country_name COUNTRY_CODE_MAP = None /\
   resolve country_name =
     (py_upper (py_slice_to 3 country_name), [warning_line country_name])).
Proof. exact (resolve_paths country_name). Qed.

(** Every code the dictionary can give has an entry in the alpha-2 table
    of [add_alpha2_codes.py]: a label resolved without a warning gets its
    two-letter code in the post-process. *)
Theorem resolved_codes_have_alpha2 (country_name : pystr) :
  (resolve country_name).2 = [] ->
  exists a2, dict_get (resolve country_name).1 ALPHA3_TO_ALPHA2 = Some a2.
Proof.
  assert (Hall : Forall (fun v : pystr => dict_get v ALPHA3_TO_ALPHA2 <> None)
                        COUNTRY_CODE_MAP.*2).
  { apply (bool_decide_eq_true_1
             (Forall (fun v : pystr => dict_get v ALPHA3_TO_ALPHA2 <> None)
                     COUNTRY_CODE_MAP.*2)).
    vm_compute. reflexivity. }
  rewrite Forall_forall in Hall.
  destruct (resolve_paths country_name) as [[c [_ [-> Hv]]]|[[c [_ [_ [-> Hv]]]]|[_ [_ ->]]]];
    simpl; intros H; try discriminate;
    destruct (dict_get c ALPHA3_TO_ALPHA2) as [a2|] eqn:E; eauto;
    by destruct (Hall c Hv).
Qed.

Lemma resolved_codes_have_alpha2_witness :
  (resolve (py "Republic of Korea")).2 = [] /\
  dict_get (resolve (py "Republic of Korea")).1 ALPHA3_TO_ALPHA2 = Some (py "KR").
Proof.
  assert (H : (resolve (py "Republic of Korea")).2 = []) by (vm_compute; reflexivity).
  split; [exact H|].
  destruct (resolved_codes_have_alpha2 (py "Republic of Korea") H) as [a2 Ha2].
  rewrite Ha2. f_equal. vm_compute in Ha2. by injection Ha2.
Defined.

(** Two labels differing only in letter case, neither an exact key,
    resolve alike when the substring scan matches one of them. *)
Theorem resolve_fallback_ignores_case (s s' : pystr) :
  py_lower s = py_lower s' ->
  dict_get s COUNTRY_CODE_MAP = None -> dict_get s' COUNTRY_CODE_MAP = None ->
  partial_match s COUNTRY_CODE_MAP <> None ->
  resolve s = resolve s'.
Proof.
  intros Hl H1 H2 H3.
  pose proof (partial_match_lower s s' COUNTRY_CODE_MAP Hl) as Hpl.
  destruct (resolve_paths s) as [[c [Hc _]]|[[c [_ [Hp [-> _]]]]|[_ [Hp _]]]];
    [congruence| |congruence].
  destruct (resolve_paths s') as [[c' [Hc' _]]|[[c' [_ [Hp' [-> _]]]]|[_ [Hp' _]]]];
    congruence.
Qed.

Lemma resolve_fallback_ignores_case_witness :
  resolve (py "FRANCE") = resolve (py "france") /\ (resolve (py "france")).1 = py "FRA".
Proof.
  split; [|vm_compute; reflexivity].
  apply resolve_fallback_ignores_case;
    [vm_compute; reflexivity|vm_compute; reflexivity|vm_compute; reflexivity|].
  vm_compute. discriminate.
Defined.

(** Case mapping beyond Latin-1: "\u212Aenya" (KELVIN SIGN, then "enya")
    lowers to "kenya" and resolves silently like "Kenya"; "\u0391France"
    and "\u03B1FRANCE" lower alike; the fallback of "\u03B1\u03B2\u03B3\u03B4" is
    "\u0391\u0392\u0393". *)
Example resolve_beyond_latin1 :
  resolve [8490; 101; 110; 121; 97]%N = resolve (py "Kenya") /\
  (resolve [8490; 101; 110; 121; 97]%N).2 = [] /\
  py_lower ([913]%N ++ py "France") = py_lower ([945]%N ++ py "FRANCE") /\
  resolve ([913]%N ++ py "France") = (py "FRA", []) /\
  resolve [945; 946; 947; 948]%N =
    ([913; 914; 915]%N, [warning_line [945; 946; 947; 948]%N]).
Proof. vm_compute. repeat split. Qed.

(** The final form of U+03A3 under [str.lower]: after a cased letter and not
    before one. *)
Example py_lower_final_sigma :
  py_lower [927; 916; 933; 931; 931; 917; 933; 931]%N =
    [959; 948; 965; 963; 963; 949; 965; 962]%N /\
  py_lower [931]%N = [963]%N /\
  py_lower ([65; 931; 39]%N ++ py "s") = [97; 963; 39; 115]%N.
Proof. vm_compute. repeat split. Qed.

(** ** The normalizer *)

(** The codes of the normalized dict are exactly the codes of the input
    labels: no label is lost, and nothing else appears. *)
Theorem normalize_codes_exact (data_dict : list (pystr * tally)) (c : pystr) :
  c ∈ dom (normalize_country_names data_dict).1 <->
  exists n m, (n, m) ∈ data_dict /\ (resolve n).1 = c.
Proof.
  rewrite elem_of_dom. split.
  - intros [[n m] Hl]. apply normalize_lookup_spec in Hl as [i [Hi [Hc _]]].
    exists n, m. split; [|done]. by eapply list_elem_of_lookup_2.
  - intros (n & m & Hin & Hc). apply list_elem_of_lookup_1 in Hin as [i Hi].
    destruct ((normalize_country_names data_dict).1 !! c) as [x|] eqn:E; [by exists x|].
    exfalso. unfold normalize_country_names in E.
    rewrite normalize_lookup, lookup_empty in E.
    exact (proj2 (winner_sound data_dict c) E i n m Hi Hc).
Qed.

Lemma normalize_step_out (st : normalized_map * list pystr) (item : pystr * tally) :
  (normalize_step st item).2 = st.2 ++ (resolve item.1).2.
Proof.
  destruct st as [M out], item as [n m]. unfold normalize_step. cbn [fst snd].
  destruct (resolve n) as [c pr].
  destruct (M !! c) as [[n0 m0]|]; [case_decide|]; reflexivity.
Qed.

Lemma fold_normalize_out (d : list (pystr * tally)) (st : normalized_map * list pystr) :
  (fold_left normalize_step d st).2 = st.2 ++ d ≫= (fun x => (resolve x.1).2).
Proof.
  revert st. induction d as [|x d IH]; intros st; simpl.
  - by rewrite app_nil_r.
  - rewrite IH, normalize_step_out. by rewrite app_assoc.
Qed.

(** The lines printed by [normalize_country_names] are, in input order,
    one warning per label that has neither an exact nor a substring entry
    in the dictionary, duplicates included. *)
Theorem normalize_printed_warnings (data_dict : list (pystr * tally)) :
  (normalize_country_names data_dict).2 =
  data_dict ≫= (fun x =>
    if bool_decide (dict_get x.1 COUNTRY_CODE_MAP = None /\
                    partial_match x.1 COUNTRY_CODE_MAP = None)
    then [warning_line x.1] else []).
Proof.
  unfold normalize_country_names. rewrite fold_normalize_out. cbn [snd app].
  induction data_dict as [|[n m] d IH]; [reflexivity|]. rewrite !bind_cons.
  f_equal; [|exact IH]. cbn [fst].
  destruct (resolve_paths n) as [[c [E1 [-> _]]]|[[c [E1 [E2 [-> _]]]]|[E1 [E2 ->]]]].
  - rewrite bool_decide_false; [reflexivity|]. rewrite E1. intros [H _]; discriminate.
  - rewrite bool_decide_false; [reflexivity|]. rewrite E2. intros [_ H]; discriminate.
  - rewrite bool_decide_true; [reflexivity|]. split; assumption.
Qed.

(** ** The aggregator *)

Lemma py_or_some (x y : option pystr) (n : pystr) :
  py_or x y = Some n -> x = Some n \/ y = Some n.
Proof. unfold py_or. destruct (truthy x); auto. Qed.

Lemma py_or_falsy (x y : option pystr) :
  truthy (py_or x y) = false <-> truthy x = false /\ truthy y = false.
Proof.
  unfold py_or. destruct (truthy x) eqn:E; [rewrite E|]; intuition congruence.
Qed.

Lemma truthy_fst_false (a : option (pystr * tally)) :
  truthy (fst <$> a) = false <-> forall n m, a = Some (n, m) -> n = [].
Proof.
  destruct a as [[n m]|]; cbn; [|naive_solver].
  destruct n as [|y n]; cbn; split; try naive_solver.
Qed.

Lemma fst_fmap_some (a : option (pystr * tally)) (n : pystr) :
  fst <$> a = Some n -> exists m, a = Some (n, m).
Proof. destruct a as [[n' m]|]; cbn; [intros [= ->]; eauto|done]. Qed.

Lemma normalize_lookup_origin (d : list (pystr * tally)) (c n : pystr) (m : tally) :
  (normalize_country_names d).1 !! c = Some (n, m) -> (n, m) ∈ d /\ (resolve n).1 = c.
Proof.
  intros Hl. apply normalize_lookup_spec in Hl as [i [Hi [Hc _]]].
  split; [|done]. by eapply list_elem_of_lookup_2.
Qed.

(** For each country of the result, [name] is a label of one of the three
    inputs that resolves to its code.  A non-empty IMO label wins over the
    other sources, and [name] is [None] or empty exactly when no source
    keeps a non-empty label for the code. *)
Theorem aggregate_name_choice (imo_data ioi_data ipho_data : list (pystr * tally)) :
  Forall (fun e =>
    (forall n, name e = Some n ->
       exists m, ((n, m) ∈ imo_data \/ (n, m) ∈ ioi_data \/ (n, m) ∈ ipho_data) /\
                 (resolve n).1 = code e) /\
    (forall n m, (normalize_country_names imo_data).1 !! code e = Some (n, m) ->
       n <> [] -> name e = Some n) /\
    (truthy (name e) = false <->
     forall n m, (normalize_country_names imo_data).1 !! code e = Some (n, m) \/
                 (normalize_country_names ioi_data).1 !! code e = Some (n, m) \/
                 (normalize_country_names ipho_data).1 !! code e = Some (n, m) -> n = []))
    (aggregate_data imo_data ioi_data ipho_data).
Proof.
  apply Forall_forall. intros e He.
  apply aggregate_data_elem in He as [c [-> _]].
  unfold build_entry. cbn [code name].
  set (a := (normalize_country_names imo_data).1 !! c).
  set (b := (normalize_country_names ioi_data).1 !! c).
  set (x := (normalize_country_names ipho_data).1 !! c).
  split; [|split].
  - intros n Hn.
    destruct (py_or_some _ _ _ Hn) as [Hs|Hs];
      [|destruct (py_or_some _ _ _ Hs) as [Hs'|Hs']; clear Hs; rename Hs' into Hs];
      apply fst_fmap_some in Hs as [m Hs]; exists m;
      apply normalize_lookup_origin in Hs as [Hm Hc]; auto.
  - intros n m Ha Hne. unfold py_or. rewrite Ha. cbn.
    destruct n as [|y n]; [done|reflexivity].
  - rewrite !py_or_falsy, !truthy_fst_false. naive_solver.
Qed.

Lemma insert_desc_filter_key (k : Z) (x : country) (l : list country) :
  filter (fun e => sort_key e = k) (insert_desc x l) =
  filter (fun e => sort_key e = k) (x :: l).
Proof.
  induction l as [|y l IH]; cbn [insert_desc]; [done|].
  destruct (sort_key y <=? sort_key x)%Z eqn:E; [done|].
  apply Z.leb_gt in E.
  rewrite filter_cons, IH, !filter_cons.
  destruct (decide (sort_key x = k)), (decide (sort_key y = k)); try done; lia.
Qed.

Lemma sort_desc_filter_key (k : Z) (l : list country) :
  filter (fun e => sort_key e = k) (sort_desc l) = filter (fun e => sort_key e = k) l.
Proof.
  induction l as [|x l IH]; cbn [sort_desc]; [done|].
  by rewrite insert_desc_filter_key, !filter_cons, IH.
Qed.

(** Sorting is stable: the countries of equal combined total keep the order
    in which the loop over [all_codes] built them. *)
Theorem aggregate_sort_stable (imo_data ioi_data ipho_data : list (pystr * tally)) (k : Z) :
  filter (fun e => total (combined e) = k) (aggregate_data imo_data ioi_data ipho_data) =
  filter (fun e => total (combined e) = k)
    (map (build_entry (normalize_country_names imo_data).1
                      (normalize_country_names ioi_data).1
                      (normalize_country_names ipho_data).1)
         (elements (dom (normalize_country_names imo_data).1 ∪
                    dom (normalize_country_names ioi_data).1 ∪
                    dom (normalize_country_names ipho_data).1))).
Proof. unfold aggregate_data. cbv zeta. exact (sort_desc_filter_key k _). Qed.

(** ** The two scripts in sequence *)

Lemma update_country_json (e : country) :
  update_country (country_json e) =
  Some (match dict_get (code e) ALPHA3_TO_ALPHA2, country_json e with
        | Some a2, JObj fields => JObj (fields ++ [(py "alpha2", JStr a2)])
        | _, j => j
        end).
Proof.
  unfold update_country, country_json. cbn [dict_get].
  rewrite decide_True by reflexivity. cbn [alpha2_of].
  destruct (dict_get (code e) ALPHA3_TO_ALPHA2) as [a2|]; [|reflexivity].
  cbn [dict_set].
  rewrite !decide_False; [reflexivity| |  |]; vm_compute; discriminate.
Qed.

(** Running [add_alpha2_codes.py] on the document written by
    [scrape_data.py] never raises.  It keeps the key order and the metadata
    and keeps the country order.  It appends an "alpha2" field to each
    country whose code is in the table, and leaves the other countries as
    they are. *)
Theorem add_alpha2_after_scrape (imo_table : option (list imo_row))
    (ioi_table ipho_table : option (list plain_row)) (generated : pystr) :
  add_alpha2_codes (scrape_output imo_table ioi_table ipho_table generated) =
  Some (JObj
    [(py "countries",
      JArr (map (fun e =>
        match dict_get (code e) ALPHA3_TO_ALPHA2, country_json e with
        | Some a2, JObj fields => JObj (fields ++ [(py "alpha2", JStr a2)])
        | _, j => j
        end)
        (aggregate_data (parse_imo_data imo_table) (parse_ioi_data ioi_table)
                        (parse_ipho_data ipho_table))));
     (py "metadata", JObj [(py "imo_years", JStr (py "1959-2025"));
                           (py "ioi_years", JStr (py "1989-2025"));
                           (py "ipho_years", JStr (py "1967-2025"));
                           (py "generated", JStr generated)])]).
Proof.
  unfold scrape_output. cbv zeta.
  generalize (aggregate_data (parse_imo_data imo_table) (parse_ioi_data ioi_table)
                             (parse_ipho_data ipho_table)) as l. intros l.
  unfold add_alpha2_codes. cbn [dict_get].
  rewrite decide_True by reflexivity.
  assert (Hm : mapM update_country (map country_json l) =
    Some (map (fun e =>
        match dict_get (code e) ALPHA3_TO_ALPHA2, country_json e with
        | Some a2, JObj fields => JObj (fields ++ [(py "alpha2", JStr a2)])
        | _, j => j
        end) l)).
  { induction l as [|e l IH]; [reflexivity|].
    cbn [map mapM]. rewrite update_country_json. cbn [mbind option_bind]. rewrite IH.
    reflexivity. }
  rewrite Hm. cbn [mbind option_bind dict_set].
  rewrite decide_True by reflexivity. reflexivity.
Qed.
